(** * Vector-based geodetic functions (latlon-vectors.js)

    A shallow embedding of [src/latlon-vectors.js]: the [LatLonV] point
    type, its conversion to and from n-vectors, and the operations built
    on them (distance, bearing, midpoint, destination, intersection,
    cross-track distance, polygon enclosure, mean).

    Numbers.  A JavaScript number is modelled by [Number]: a real number,
    one of the two infinities, or NaN.  Arithmetic is the IEEE-754
    arithmetic of the language with two idealisations: finite results are
    exact (no rounding, no overflow), and there is a single zero (the sign
    of a zero is not tracked; where the language distinguishes the two
    zeros the positive one is assumed).

    Control.  A call either returns a value or throws: [Completion].

    Objects.  Points and vectors are never assigned to after construction,
    so they are records.  The one object the source mutates is the array
    handed to [enclosedBy] ([points.pop()]); the array operations are
    therefore written in a state monad [ArrayM] over the array's
    contents. *)

From Stdlib Require Import Reals Lra Lia ZArith List String Bool.
From Stdlib Require Import RNsatz.
Import ListNotations.

Open Scope R_scope.

(** ** Numbers *)

Inductive Number : Type :=
| NaN
| Inf (negative : bool)
| Fin (r : R).

Definition Rltb (a b : R) : bool := if Rlt_dec a b then true else false.
Definition Reqb (a b : R) : bool := if Req_dec_T a b then true else false.

(** Unary minus. *)
Definition Nneg (a : Number) : Number :=
  match a with
  | NaN => NaN
  | Inf s => Inf (negb s)
  | Fin r => Fin (- r)
  end.

(** [a + b] *)
Definition Nadd (a b : Number) : Number :=
  match a, b with
  | NaN, _ | _, NaN => NaN
  | Fin r, Fin s => Fin (r + s)
  | Inf s, Fin _ => Inf s
  | Fin _, Inf s => Inf s
  | Inf s, Inf t => if Bool.eqb s t then Inf s else NaN
  end.

(** [a - b] *)
Definition Nsub (a b : Number) : Number :=
  match a, b with
  | NaN, _ | _, NaN => NaN
  | Fin r, Fin s => Fin (r - s)
  | Inf s, Fin _ => Inf s
  | Fin _, Inf s => Inf (negb s)
  | Inf s, Inf t => if Bool.eqb s t then NaN else Inf s
  end.

(** [a * b] *)
Definition Nmul (a b : Number) : Number :=
  match a, b with
  | NaN, _ | _, NaN => NaN
  | Fin r, Fin s => Fin (r * s)
  | Inf s, Fin r => if Reqb r 0 then NaN else Inf (xorb s (Rltb r 0))
  | Fin r, Inf s => if Reqb r 0 then NaN else Inf (xorb (Rltb r 0) s)
  | Inf s, Inf t => Inf (xorb s t)
  end.

(** [a / b] *)
Definition Ndiv (a b : Number) : Number :=
  match a, b with
  | NaN, _ | _, NaN => NaN
  | Fin r, Fin s =>
      if Reqb s 0
      then (if Reqb r 0 then NaN else Inf (Rltb r 0))
      else Fin (r / s)
  | Inf s, Fin r => Inf (xorb s (Rltb r 0))
  | Fin _, Inf _ => Fin 0
  | Inf _, Inf _ => NaN
  end.

(** [a < b]; false as soon as one side is NaN. *)
Definition Nlt (a b : Number) : bool :=
  match a, b with
  | NaN, _ | _, NaN => false
  | Fin r, Fin s => Rltb r s
  | Inf s, Fin _ => s
  | Fin _, Inf s => negb s
  | Inf s, Inf t => s && negb t
  end.

(** [a == b] on numbers; NaN equals nothing, itself included. *)
Definition Neq (a b : Number) : bool :=
  match a, b with
  | NaN, _ | _, NaN => false
  | Fin r, Fin s => Reqb r s
  | Inf s, Inf t => Bool.eqb s t
  | _, _ => false
  end.

(** [a != b] *)
Definition Nne (a b : Number) : bool := negb (Neq a b).

(** Truncation towards zero of a real. *)
Definition Rtrunc (r : R) : Z :=
  if Rlt_dec r 0 then (- Int_part (- r))%Z else Int_part r.

(** [a % b]: the remainder has the sign of the dividend. *)
Definition Nmod (a b : Number) : Number :=
  match a, b with
  | NaN, _ | _, NaN => NaN
  | Inf _, _ => NaN
  | Fin r, Inf _ => Fin r
  | Fin r, Fin s =>
      if Reqb s 0 then NaN else Fin (r - s * IZR (Rtrunc (r / s)))
  end.

(** ** The [Math] object *)

Definition Math_PI : Number := Fin PI.

Definition Math_sin (a : Number) : Number :=
  match a with
  | Fin r => Fin (sin r)
  | _ => NaN
  end.

Definition Math_cos (a : Number) : Number :=
  match a with
  | Fin r => Fin (cos r)
  | _ => NaN
  end.

Definition Math_sqrt (a : Number) : Number :=
  match a with
  | NaN => NaN
  | Inf s => if s then NaN else Inf false
  | Fin r => if Rltb r 0 then NaN else Fin (sqrt r)
  end.

(** The angle of the point [(x, y)] in (-PI, PI]; 0 at the origin. *)
Definition Ratan2 (y x : R) : R :=
  if Rlt_dec 0 x then atan (y / x)
  else if Rlt_dec x 0 then
         (if Rlt_dec y 0 then atan (y / x) - PI else atan (y / x) + PI)
  else if Rlt_dec 0 y then PI / 2
  else if Rlt_dec y 0 then - (PI / 2)
  else 0.

Definition Math_atan2 (y x : Number) : Number :=
  match y, x with
  | NaN, _ | _, NaN => NaN
  | Fin r, Fin s => Fin (Ratan2 r s)
  | Inf s, Fin _ => Fin (if s then - (PI / 2) else PI / 2)
  | Fin r, Inf false => Fin 0
  | Fin r, Inf true => Fin (if Rltb r 0 then - PI else PI)
  | Inf s, Inf false => Fin (if s then - (PI / 4) else PI / 4)
  | Inf s, Inf true => Fin (if s then - (3 * PI / 4) else 3 * PI / 4)
  end.

(** [Number.prototype.toRadians]: [this * Math.PI / 180]. *)
Definition toRadians (this : Number) : Number :=
  Ndiv (Nmul this Math_PI) (Fin 180).

(** [Number.prototype.toDegrees]: [this * 180 / Math.PI]. *)
Definition toDegrees (this : Number) : Number :=
  Ndiv (Nmul this (Fin 180)) Math_PI.

(** ** Completions *)

Inductive JSError : Type :=
| TypeError (msg : string)
| ReferenceError (msg : string)
| Error (msg : string).

Inductive Completion (A : Type) : Type :=
| Normal (a : A)
| Throw (e : JSError).

Arguments Normal {A} a.
Arguments Throw {A} e.

Definition bind {A B : Type} (c : Completion A) (k : A -> Completion B)
  : Completion B :=
  match c with
  | Normal a => k a
  | Throw e => Throw e
  end.

Notation "x <- c ;; k" := (bind c (fun x => k))
  (at level 61, c at next level, right associativity).

(** ** Values *)

Record Vector3d : Type := mkVector3d { x : Number; y : Number; z : Number }.

Record LatLonV : Type :=
  mkLatLonV { lat : Number; lon : Number; radius : Number }.

(** The values that reach the parameters of the source's functions. *)
Inductive Value : Type :=
| VUndefined
| VNumber (n : Number)
| VLatLonV (p : LatLonV)
| VFunction (name : string).

Definition typeof (v : Value) : string :=
  match v with
  | VUndefined => "undefined"
  | VNumber _ => "number"
  | VLatLonV _ => "object"
  | VFunction _ => "function"
  end.

(** [typeof] of an identifier that no enclosing scope declares evaluates
    to "undefined" and does not throw. *)
Definition typeof_undeclared (name : string) : string := "undefined".

(** Reading an identifier that no enclosing scope declares throws. *)
Definition read_undeclared {A : Type} (name : string) : Completion A :=
  Throw (ReferenceError (name ++ " is not defined")).

(** Calling a property whose value is undefined throws. *)
Definition not_a_function {A : Type} (name : string) : Completion A :=
  Throw (TypeError (name ++ " is not a function")).

(** [Number(v)].  A point is converted through its [toString], which
    joins two formatted coordinates with a comma and a space: no such
    string is a numeric literal, so the conversion yields NaN. *)
Definition ToNumber (v : Value) : Number :=
  match v with
  | VNumber n => n
  | VUndefined | VLatLonV _ | VFunction _ => NaN
  end.

(** [n == v] with a number on the left. *)
Definition Neq_value (n : Number) (v : Value) : bool :=
  match v with
  | VNumber m => Neq n m
  | VUndefined => false
  | VLatLonV _ | VFunction _ => Neq n (ToNumber v)
  end.

(** [Math.sign] as the source defines it:
    [typeof x === 'number' ? x ? x < 0 ? -1 : 1 : x === x ? 0 : NaN : NaN]. *)
Definition Math_sign (v : Value) : Number :=
  match v with
  | VNumber n =>
      match n with
      | NaN => NaN
      | Inf s => if s then Fin (-1) else Fin 1
      | Fin r => if Reqb r 0 then Fin 0
                 else if Rltb r 0 then Fin (-1) else Fin 1
      end
  | _ => NaN
  end.

(** The methods the source assigns to [LatLonV.prototype]. *)
Definition LatLonV_prototype : list string :=
  ["toVector"; "greatCircle"; "distanceTo"; "bearingTo"; "midpointTo";
   "destinationPoint"; "crossTrackDistanceTo"; "enclosedBy"; "equals";
   "toString"]%string.

(** The methods of [Number.prototype]: the built-in ones and the two the
    source adds. *)
Definition Number_prototype : list string :=
  ["toExponential"; "toFixed"; "toLocaleString"; "toPrecision"; "toString";
   "valueOf"; "toRadians"; "toDegrees"]%string.

(** The methods every object inherits from [Object.prototype]. *)
Definition Object_prototype : list string :=
  ["constructor"; "hasOwnProperty"; "isPrototypeOf"; "propertyIsEnumerable";
   "toLocaleString"; "toString"; "valueOf"]%string.

Definition mem (name : string) (names : list string) : bool :=
  existsb (String.eqb name) names.

(** [v.name]: own properties first, then the prototype chain; undefined
    when the property is nowhere; a TypeError when [v] is undefined.
    Function objects are only ever asked for names they do not have. *)
Definition get_prop (v : Value) (name : string) : Completion Value :=
  match v with
  | VUndefined =>
      Throw (TypeError ("Cannot read property " ++ name ++ " of undefined"))
  | VNumber _ =>
      if mem name (Number_prototype ++ Object_prototype)
      then Normal (VFunction name) else Normal VUndefined
  | VLatLonV p =>
      if String.eqb name "lat" then Normal (VNumber (lat p))
      else if String.eqb name "lon" then Normal (VNumber (lon p))
      else if String.eqb name "radius" then Normal (VNumber (radius p))
      else if mem name (LatLonV_prototype ++ Object_prototype)
      then Normal (VFunction name) else Normal VUndefined
  | VFunction _ => Normal VUndefined
  end.

(** ** Vector3d algebra *)

(** Modelled from the spec: [Vector3d.prototype.plus] is not under src/;
    component-wise sum. *)
Definition plus (a b : Vector3d) : Vector3d :=
  mkVector3d (Nadd (x a) (x b)) (Nadd (y a) (y b)) (Nadd (z a) (z b)).

(** Modelled from the spec: [Vector3d.prototype.minus] is not under src/;
    component-wise difference. *)
Definition minus (a b : Vector3d) : Vector3d :=
  mkVector3d (Nsub (x a) (x b)) (Nsub (y a) (y b)) (Nsub (z a) (z b)).

(** Modelled from the spec: [Vector3d.prototype.times] is not under src/;
    scalar multiply. *)
Definition times (a : Vector3d) (k : Number) : Vector3d :=
  mkVector3d (Nmul (x a) k) (Nmul (y a) k) (Nmul (z a) k).

(** Modelled from the spec: [Vector3d.prototype.dot] is not under src/;
    [ax*bx + ay*by + az*bz]. *)
Definition dot (a b : Vector3d) : Number :=
  Nadd (Nadd (Nmul (x a) (x b)) (Nmul (y a) (y b))) (Nmul (z a) (z b)).

(** Modelled from the spec: [Vector3d.prototype.cross] is not under src/;
    the standard 3-vector cross product. *)
Definition cross (a b : Vector3d) : Vector3d :=
  mkVector3d (Nsub (Nmul (y a) (z b)) (Nmul (z a) (y b)))
             (Nsub (Nmul (z a) (x b)) (Nmul (x a) (z b)))
             (Nsub (Nmul (x a) (y b)) (Nmul (y a) (x b))).

(** Modelled from the spec: [Vector3d.prototype.length] is not under src/;
    [sqrt(dot(a,a))]. *)
Definition length (a : Vector3d) : Number := Math_sqrt (dot a a).

(** Modelled from the spec: [Vector3d.prototype.unit] is not under src/;
    [a] divided by [length(a)], with no guard of its own: on the zero
    vector every component is [0/0]. *)
Definition unit (a : Vector3d) : Vector3d :=
  let norm := length a in
  mkVector3d (Ndiv (x a) norm) (Ndiv (y a) norm) (Ndiv (z a) norm).

(** Modelled from the spec: [Vector3d.prototype.angleTo] is not under src/;
    [atan2(length(cross(a,b)), dot(a,b))]. *)
Definition angleTo (a b : Vector3d) : Number :=
  Math_atan2 (length (cross a b)) (dot a b).

(** ** LatLonV: constructor and conversions *)

(** [new LatLonV(lat, lon, radius)] *)
Definition new_LatLonV (lat lon radius : Value) : Completion LatLonV :=
  let radius :=
    if String.eqb (typeof radius) "undefined"
    then VNumber (Fin 6371) else radius in
  Normal (mkLatLonV (ToNumber lat) (ToNumber lon) (ToNumber radius)).

(** [LatLonV.prototype.toVector] *)
Definition toVector (this : LatLonV) : Completion Vector3d :=
  let phi := toRadians (lat this) in
  let lambda := toRadians (lon this) in
  let x := Nmul (Math_cos phi) (Math_cos lambda) in
  let y := Nmul (Math_cos phi) (Math_sin lambda) in
  let z := Math_sin phi in
  Normal (mkVector3d x y z).

(** [Vector3d.prototype.toLatLon] *)
Definition toLatLon (this : Vector3d) : Completion LatLonV :=
  let phi :=
    Math_atan2 (z this)
      (Math_sqrt (Nadd (Nmul (x this) (x this)) (Nmul (y this) (y this)))) in
  let lambda := Math_atan2 (y this) (x this) in
  new_LatLonV (VNumber (toDegrees phi)) (VNumber (toDegrees lambda))
              VUndefined.

(** [LatLonV.prototype.greatCircle] *)
Definition greatCircle (this : LatLonV) (bearing : Value)
  : Completion Vector3d :=
  let phi := toRadians (lat this) in
  let lambda := toRadians (lon this) in
  let theta := toRadians (ToNumber bearing) in
  let x := Nsub (Nmul (Math_sin lambda) (Math_cos theta))
                (Nmul (Nmul (Math_sin phi) (Math_cos lambda))
                      (Math_sin theta)) in
  let y := Nsub (Nmul (Nneg (Math_cos lambda)) (Math_cos theta))
                (Nmul (Nmul (Math_sin phi) (Math_sin lambda))
                      (Math_sin theta)) in
  let z := Nmul (Math_cos phi) (Math_sin theta) in
  Normal (mkVector3d x y z).

(** ** Pairwise operations *)

(** [LatLonV.prototype.distanceTo] *)
Definition distanceTo (this point : LatLonV) : Completion Number :=
  p1 <- toVector this ;;
  p2 <- toVector point ;;
  let delta := angleTo p1 p2 in
  let d := Nmul delta (radius this) in
  Normal d.

(** [LatLonV.prototype.bearingTo] *)
Definition bearingTo (this point : LatLonV) : Completion Number :=
  p1 <- toVector this ;;
  p2 <- toVector point ;;
  let northPole := mkVector3d (Fin 0) (Fin 0) (Fin 1) in
  let c1 := cross p1 p2 in
  let c2 := cross p1 northPole in
  let sin_theta := length (cross c1 c2) in
  let cos_theta := dot c1 c2 in
  let sin_theta :=
    if Nlt (dot (cross c1 c2) p1) (Fin 0)
    then Nneg sin_theta else sin_theta in
  let bearing := toDegrees (Math_atan2 sin_theta cos_theta) in
  Normal (Nmod (Nadd bearing (Fin 360)) (Fin 360)).

(** [LatLonV.prototype.midpointTo] *)
Definition midpointTo (this point : LatLonV) : Completion LatLonV :=
  p1 <- toVector this ;;
  p2 <- toVector point ;;
  let mid := unit (plus p1 p2) in
  toLatLon mid.

(** [LatLonV.prototype.destinationPoint] *)
Definition destinationPoint (this : LatLonV) (bearing distance : Value)
  : Completion LatLonV :=
  let delta := Ndiv (ToNumber distance) (radius this) in
  c <- greatCircle this bearing ;;
  p1 <- toVector this ;;
  let x := times p1 (Math_cos delta) in
  let y := times (cross c p1) (Math_sin delta) in
  let p2 := unit (plus x y) in
  toLatLon p2.

(** ** Composite operations *)

(** [LatLonV.intersection].  The endpoint branches call [cross] on a
    point, which [LatLonV.prototype] does not define. *)
Definition intersection (path1start : LatLonV) (path1brngEnd : Value)
                        (path2start : LatLonV) (path2brngEnd : Value)
  : Completion LatLonV :=
  c1 <- (if String.eqb (typeof path1brngEnd) "LatLonV"
         then not_a_function "path1start.cross"
         else greatCircle path1start path1brngEnd) ;;
  c2 <- (if String.eqb (typeof path2brngEnd) "LatLonV"
         then not_a_function "path2start.cross"
         else greatCircle path2start path2brngEnd) ;;
  let intersection := cross c1 c2 in
  toLatLon intersection.

(** [pathStart.greatCircle(bearing)] on a receiver of any type. *)
Definition invoke_greatCircle (pathStart : Value) (bearing : Value)
  : Completion Vector3d :=
  f <- get_prop pathStart "greatCircle" ;;
  match f, pathStart with
  | VFunction _, VLatLonV p => greatCircle p bearing
  | _, _ => not_a_function "pathStart.greatCircle"
  end.

(** [LatLonV.prototype.crossTrackDistanceTo].  The parameter is
    [pathBrngEnd]; the test reads [pathbrngEnd], which nothing declares. *)
Definition crossTrackDistanceTo (this : LatLonV)
                                (pathStart pathBrngEnd : Value)
  : Completion Number :=
  p <- toVector this ;;
  gc <- (if String.eqb (typeof_undeclared "pathbrngEnd") "LatLonV"
         then (pathEnd <- read_undeclared (A := Value) "pathbrngEnd" ;;
               not_a_function "pathStart.cross")
         else (let pathBrng := ToNumber pathBrngEnd in
               invoke_greatCircle pathStart (VNumber pathBrng))) ;;
  let alpha := Nsub (Ndiv Math_PI (Fin 2)) (angleTo p gc) in
  let d := Nmul alpha (radius this) in
  Normal d.

(** [LatLonV.prototype.equals].  The parameter is [point]; the first
    comparison reads [points], which nothing declares. *)
Definition equals (this : LatLonV) (point : Value) : Completion bool :=
  points <- read_undeclared (A := Value) "points" ;;
  points_lat <- get_prop points "lat" ;;
  if Neq_value (lat this) points_lat then
    point_lon <- get_prop point "lon" ;;
    if Neq_value (lon this) point_lon then
      point_radius <- get_prop point "radius" ;;
      if Neq_value (radius this) point_radius then Normal true
      else Normal false
    else Normal false
  else Normal false.

(** [v.equals(point)] on a receiver of any type. *)
Definition invoke_equals (v : Value) (point : Value) : Completion bool :=
  f <- get_prop v "equals" ;;
  match f, v with
  | VFunction _, VLatLonV p => equals p point
  | _, _ => not_a_function "equals"
  end.

(** ** The array argument *)

(** A computation over the contents of the array [points]: it returns or
    throws, and leaves the array in some state. *)
Definition ArrayM (A : Type) : Type :=
  list LatLonV -> Completion A * list LatLonV.

Definition ret {A : Type} (a : A) : ArrayM A := fun s => (Normal a, s).

Definition lift {A : Type} (c : Completion A) : ArrayM A := fun s => (c, s).

Definition bindA {A B : Type} (m : ArrayM A) (k : A -> ArrayM B)
  : ArrayM B :=
  fun s =>
    match m s with
    | (Normal a, s') => k a s'
    | (Throw e, s') => (Throw e, s')
    end.

Notation "x <~ m ;; k" := (bindA m (fun x => k))
  (at level 61, m at next level, right associativity).

(** [points[i]]: undefined outside the array. *)
Definition array_get (i : Z) : ArrayM Value :=
  fun s =>
    (Normal (if (i <? 0)%Z then VUndefined
             else match nth_error s (Z.to_nat i) with
                  | Some p => VLatLonV p
                  | None => VUndefined
                  end), s).

(** [points.length] *)
Definition array_length : ArrayM Z :=
  fun s => (Normal (Z.of_nat (List.length s)), s).

(** [points.pop()]: removes the last element and returns it. *)
Definition array_pop : ArrayM Value :=
  fun s =>
    (Normal (match nth_error s (List.length s - 1) with
             | Some p => VLatLonV p
             | None => VUndefined
             end), removelast s).

(** The indices [from], [from+1], ... below [n] that a [for] loop visits. *)
Definition indices (from : nat) (n : Z) : list Z :=
  map Z.of_nat (seq from (Z.to_nat n - from)).

(** The body of the [for] loop of [enclosedBy], for the indices [ps]:
    [p1] and [p2] are the numbers [p-1] and [p]. *)
Fixpoint enclosedBy_loop (this : LatLonV) (side turn : Number)
                         (ps : list Z) : ArrayM bool :=
  match ps with
  | [] => ret true
  | p :: ps' =>
      let p1 := VNumber (Fin (IZR (p - 1))) in
      let p2 := VNumber (Fin (IZR p)) in
      d <~ lift (crossTrackDistanceTo this p2 p2) ;;
      if Nne (Math_sign (VNumber d)) side then ret false
      else
        p1_cross <~ lift (get_prop p1 "cross") ;;
        t <~ lift (get_prop p1_cross "p2") ;;
        if Nne (Math_sign t) turn
        then lift (Throw (Error "Polygon must be convex"))
        else enclosedBy_loop this side turn ps'
  end.

(** [LatLonV.prototype.enclosedBy] *)
Definition enclosedBy (this : LatLonV) : ArrayM bool :=
  first <~ array_get 0 ;;
  n <~ array_length ;;
  last <~ array_get (n - 1) ;;
  closed <~ lift (invoke_equals first last) ;;
  _ <~ (if closed : bool then array_pop else ret VUndefined) ;;
  n <~ array_length ;;
  p1 <~ array_get (n - 1) ;;
  p2 <~ array_get 0 ;;
  d <~ lift (crossTrackDistanceTo this p2 p2) ;;
  let side := Math_sign (VNumber d) in
  p1_cross <~ lift (get_prop p1 "cross") ;;
  t <~ lift (get_prop p1_cross "p2") ;;
  let turn := Math_sign t in
  n <~ array_length ;;
  enclosedBy_loop this side turn (indices 1 n).

(** The [for] loop of [meanOf]: [m = m.plus(points[p])], where [m] is a
    point and [LatLonV.prototype] defines no [plus]. *)
Fixpoint meanOf_loop (m : LatLonV) (ps : list Z) : ArrayM LatLonV :=
  match ps with
  | [] => ret m
  | p :: ps' =>
      point <~ array_get p ;;
      m' <~ lift (not_a_function (A := LatLonV) "m.plus") ;;
      meanOf_loop m' ps'
  end.

(** [LatLonV.meanOf]; [LatLonV.prototype] defines no [unit] either. *)
Definition meanOf : ArrayM LatLonV :=
  m <~ lift (new_LatLonV (VNumber (Fin 0)) (VNumber (Fin 0))
                         (VNumber (Fin 0))) ;;
  n <~ array_length ;;
  m <~ meanOf_loop m (indices 0 n) ;;
  lift (not_a_function "m.unit").

(** ** Predicates used by the statements *)

(** Lowering a point to its n-vector and lifting it back. *)
Definition roundtrip (p : LatLonV) : Completion LatLonV :=
  v <- toVector p ;; toLatLon v.





(** A call that ends by throwing. *)
Definition throws {A : Type} (c : Completion A) : Prop :=
  exists e, c = Throw e.

(** The point [lat, lon] (degrees) on the default sphere. *)
Definition point (lat lon : R) : LatLonV :=
  mkLatLonV (Fin lat) (Fin lon) (Fin 6371).

Definition NaN_vector : Vector3d := mkVector3d NaN NaN NaN.
Definition NaN_point : LatLonV := mkLatLonV NaN NaN (Fin 6371).

(** A call that ends by returning. *)
Definition returns {A : Type} (c : Completion A) : Prop :=
  exists a, c = Normal a.

(** The plane normal of a path as the comments of [intersection] describe
    it: through the start and the endpoint when the second argument is a
    point, on the bearing otherwise. *)
Definition described_plane (start : LatLonV) (brngEnd : Value)
  : Completion Vector3d :=
  match brngEnd with
  | VLatLonV e => u <- toVector start ;; w <- toVector e ;; Normal (cross u w)
  | _ => greatCircle start brngEnd
  end.

(** The intersection as described: the direction [cross(c1, c2)] of the two
    described plane normals, lifted to a point. *)
Definition described_intersection (path1start : LatLonV) (path1brngEnd : Value)
                                  (path2start : LatLonV) (path2brngEnd : Value)
  : Completion LatLonV :=
  c1 <- described_plane path1start path1brngEnd ;;
  c2 <- described_plane path2start path2brngEnd ;;
  toLatLon (cross c1 c2).

(** The point [this] lies on the great circle through [pathStart] on the
    bearing [bearing]: its n-vector is perpendicular to the great-circle
    vector. *)
Definition on_great_circle (this pathStart : LatLonV) (bearing : Value)
  : Prop :=
  exists v g, toVector this = Normal v /\ greatCircle pathStart bearing = Normal g
              /\ dot v g = Fin 0.

(** * Properties *)

(** ** Numbers *)

Lemma Rltb_true (a b : R) : a < b -> Rltb a b = true.
Proof. intros H; unfold Rltb; destruct (Rlt_dec a b); [reflexivity | contradiction]. Qed.

Lemma Rltb_false (a b : R) : ~ a < b -> Rltb a b = false.
Proof. intros H; unfold Rltb; destruct (Rlt_dec a b); [contradiction | reflexivity]. Qed.

Lemma Reqb_true (a b : R) : a = b -> Reqb a b = true.
Proof. intros H; unfold Reqb; destruct (Req_dec_T a b); [reflexivity | contradiction]. Qed.

Lemma Reqb_false (a b : R) : a <> b -> Reqb a b = false.
Proof. intros H; unfold Reqb; destruct (Req_dec_T a b); [contradiction | reflexivity]. Qed.

Lemma Ndiv_Fin (r s : R) : s <> 0 -> Ndiv (Fin r) (Fin s) = Fin (r / s).
Proof. intros H; simpl; now rewrite Reqb_false. Qed.

Lemma Nmul_NaN_r (a : Number) : Nmul a NaN = NaN.
Proof. now destruct a. Qed.

Lemma Nsub_NaN_r (a : Number) : Nsub a NaN = NaN.
Proof. now destruct a. Qed.

Lemma Math_sqrt_Fin (r : R) : 0 <= r -> Math_sqrt (Fin r) = Fin (sqrt r).
Proof. intros H; simpl; rewrite Rltb_false; [reflexivity | lra]. Qed.

Lemma toRadians_Fin (r : R) : toRadians (Fin r) = Fin (r * PI / 180).
Proof. unfold toRadians, Math_PI; simpl Nmul; apply Ndiv_Fin; lra. Qed.

Lemma toDegrees_Fin (r : R) : toDegrees (Fin r) = Fin (r * 180 / PI).
Proof.
  unfold toDegrees, Math_PI; simpl Nmul; apply Ndiv_Fin.
  pose proof PI_RGT_0; lra.
Qed.

Lemma toRadians_NaN : toRadians NaN = NaN.
Proof. reflexivity. Qed.

Lemma toRadians_Inf (s : bool) : Math_sin (toRadians (Inf s)) = NaN
                                 /\ Math_cos (toRadians (Inf s)) = NaN.
Proof.
  unfold toRadians, Math_PI; simpl Nmul.
  rewrite Reqb_false by (pose proof PI_RGT_0; lra).
  simpl; split; reflexivity.
Qed.

(** ** Control *)

Lemma toVector_returns (p : LatLonV) :
  toVector p =
  Normal (mkVector3d
            (Nmul (Math_cos (toRadians (lat p))) (Math_cos (toRadians (lon p))))
            (Nmul (Math_cos (toRadians (lat p))) (Math_sin (toRadians (lon p))))
            (Math_sin (toRadians (lat p)))).
Proof. reflexivity. Qed.

Lemma toLatLon_radius (v : Vector3d) :
  exists la lo, toLatLon v = Normal (mkLatLonV la lo (Fin 6371)).
Proof. unfold toLatLon, new_LatLonV; simpl; eauto. Qed.

Lemma toLatLon_NaN_vector : toLatLon NaN_vector = Normal NaN_point.
Proof. reflexivity. Qed.

Lemma cross_NaN_l (v : Vector3d) : cross NaN_vector v = NaN_vector.
Proof. reflexivity. Qed.

Lemma typeof_never_LatLonV (v : Value) :
  String.eqb (typeof v) "LatLonV" = false.
Proof. now destruct v. Qed.

Lemma LatLonV_has_no_vector_methods :
  mem "cross" (LatLonV_prototype ++ Object_prototype) = false
  /\ mem "plus" (LatLonV_prototype ++ Object_prototype) = false
  /\ mem "unit" (LatLonV_prototype ++ Object_prototype) = false.
Proof. repeat split; reflexivity. Qed.

(** ** The angle function *)

Lemma atan_tan_shift (t k : R) :
  - (PI / 2) < t < PI / 2 -> sin k = 0 -> cos k <> 0 ->
  atan (sin (t + k) / cos (t + k)) = t.
Proof.
  intros Ht Hs Hc.
  rewrite sin_plus, cos_plus, Hs.
  assert (Hct : 0 < cos t) by (apply cos_gt_0; lra).
  replace ((sin t * cos k + cos t * 0) / (cos t * cos k - sin t * 0))
    with (tan t) by (unfold tan; field; split; lra).
  now apply atan_tan.
Qed.

Lemma Ratan2_polar (r t : R) :
  0 < r -> - PI < t <= PI -> Ratan2 (r * sin t) (r * cos t) = t.
Proof.
  intros Hr [Hlo Hhi].
  pose proof PI_RGT_0 as Hpi.
  assert (Hq : forall u, cos u <> 0 -> r * sin u / (r * cos u) = sin u / cos u)
    by (intros u Hu; field; split; lra).
  destruct (Rlt_dec t (- (PI / 2))) as [H1 | H1].
  - (* third quadrant *)
    assert (Hc : cos t < 0).
    { rewrite <- cos_neg. apply cos_lt_0; lra. }
    assert (Hs : sin t < 0) by (apply sin_lt_0_var; lra).
    unfold Ratan2.
    destruct (Rlt_dec 0 (r * cos t)); [nra |].
    destruct (Rlt_dec (r * cos t) 0); [| nra].
    destruct (Rlt_dec (r * sin t) 0); [| nra].
    rewrite Hq by lra.
    replace t with ((t + PI) + - PI) at 1 2 by lra.
    rewrite atan_tan_shift; try lra.
    + rewrite sin_neg, sin_PI; lra.
    + rewrite cos_neg, cos_PI; lra.
  - destruct (Req_dec_T t (- (PI / 2))) as [H2 | H2].
    + subst t. unfold Ratan2.
      rewrite cos_neg, sin_neg, cos_PI2, sin_PI2.
      destruct (Rlt_dec 0 (r * 0)); [lra |].
      destruct (Rlt_dec (r * 0) 0); [lra |].
      destruct (Rlt_dec 0 (r * - (1))); [lra |].
      destruct (Rlt_dec (r * - (1)) 0); [reflexivity | lra].
    + destruct (Rlt_dec t (PI / 2)) as [H3 | H3].
      * assert (Hc : 0 < cos t) by (apply cos_gt_0; lra).
        unfold Ratan2.
        destruct (Rlt_dec 0 (r * cos t)); [| nra].
        rewrite Hq by lra.
        replace t with (t + 0) at 1 2 by lra.
        apply atan_tan_shift; try lra.
        -- apply sin_0.
        -- rewrite cos_0; lra.
      * destruct (Req_dec_T t (PI / 2)) as [H4 | H4].
        -- subst t. unfold Ratan2. rewrite cos_PI2, sin_PI2.
           destruct (Rlt_dec 0 (r * 0)); [lra |].
           destruct (Rlt_dec (r * 0) 0); [lra |].
           destruct (Rlt_dec 0 (r * 1)); [reflexivity | lra].
        -- assert (Hc : cos t < 0) by (apply cos_lt_0; lra).
           assert (Hs : 0 <= sin t) by (apply sin_ge_0; lra).
           unfold Ratan2.
           destruct (Rlt_dec 0 (r * cos t)); [nra |].
           destruct (Rlt_dec (r * cos t) 0); [| nra].
           destruct (Rlt_dec (r * sin t) 0); [nra |].
           rewrite Hq by lra.
           replace t with ((t - PI) + PI) at 1 2 by lra.
           rewrite atan_tan_shift; try lra.
           ++ apply sin_PI.
           ++ rewrite cos_PI; lra.
Qed.

(** ** Conversion round trip *)

(** The round trip returns the latitude, and the angle in (-180, 180] that
    has the sine and cosine of the longitude. *)
Lemma roundtrip_principal (la lo t : R) (r : Number) :
  -90 < la < 90 -> -180 < t <= 180 ->
  sin (lo * PI / 180) = sin (t * PI / 180) ->
  cos (lo * PI / 180) = cos (t * PI / 180) ->
  roundtrip (mkLatLonV (Fin la) (Fin lo) r)
  = Normal (mkLatLonV (Fin la) (Fin t) (Fin 6371)).
Proof.
  intros Hla Ht Hsin Hcos.
  pose proof PI_RGT_0 as Hpi.
  unfold roundtrip. rewrite toVector_returns. simpl bind.
  unfold toLatLon, new_LatLonV. simpl.
  rewrite !toRadians_Fin. simpl.
  rewrite Hsin, Hcos.
  set (phi := la * PI / 180). set (lam := t * PI / 180).
  assert (Hphi : - (PI / 2) < phi < PI / 2) by (unfold phi; split; nra).
  assert (Hlam : - PI < lam <= PI) by (unfold lam; split; nra).
  assert (Hc : 0 < cos phi) by (apply cos_gt_0; lra).
  assert (Hsq : cos phi * cos lam * (cos phi * cos lam)
                + cos phi * sin lam * (cos phi * sin lam)
                = Rsqr (cos phi)).
  { pose proof (sin2_cos2 lam) as H. unfold Rsqr in *. nra. }
  rewrite Hsq, Rltb_false by (pose proof (Rle_0_sqr (cos phi)); lra).
  rewrite sqrt_Rsqr by lra.
  rewrite (Ratan2_polar (cos phi) lam Hc Hlam).
  replace (Ratan2 (sin phi) (cos phi)) with phi.
  2:{ rewrite <- (Ratan2_polar 1 phi) at 1; [| lra | lra].
      now rewrite !Rmult_1_l. }
  rewrite !toDegrees_Fin.
  do 2 f_equal; f_equal; unfold phi, lam; field; lra.
Qed.

Lemma roundtrip_exact (la lo : R) (r : Number) :
  -90 < la < 90 -> -180 < lo <= 180 ->
  roundtrip (mkLatLonV (Fin la) (Fin lo) r)
  = Normal (mkLatLonV (Fin la) (Fin lo) (Fin 6371)).
Proof. intros Hla Hlo; now apply roundtrip_principal. Qed.





(** ** Symmetry of the angle between two vectors *)

Lemma Nmul_comm (a b : Number) : Nmul a b = Nmul b a.
Proof.
  destruct a as [| s | r], b as [| t | u]; simpl; try reflexivity.
  - now rewrite xorb_comm.
  - destruct (Reqb u 0); [reflexivity | now rewrite xorb_comm].
  - destruct (Reqb r 0); [reflexivity | now rewrite xorb_comm].
  - now rewrite Rmult_comm.
Qed.

Lemma Nsub_swap (a b : Number) : Nsub b a = Nneg (Nsub a b).
Proof.
  destruct a as [| s | r], b as [| t | u]; simpl; try reflexivity.
  - destruct s, t; reflexivity.
  - now rewrite negb_involutive.
  - f_equal; ring.
Qed.

Lemma Nmul_Nneg_Nneg (a : Number) : Nmul (Nneg a) (Nneg a) = Nmul a a.
Proof.
  destruct a as [| s | r]; simpl; try reflexivity.
  - now destruct s.
  - f_equal; ring.
Qed.

Lemma dot_comm (a b : Vector3d) : dot a b = dot b a.
Proof.
  unfold dot.
  now rewrite (Nmul_comm (x a)), (Nmul_comm (y a)), (Nmul_comm (z a)).
Qed.

Lemma length_cross_swap (a b : Vector3d) :
  length (cross b a) = length (cross a b).
Proof.
  unfold length, dot, cross; simpl.
  rewrite (Nmul_comm (y b) (z a)), (Nmul_comm (z b) (y a)),
          (Nmul_comm (z b) (x a)), (Nmul_comm (x b) (z a)),
          (Nmul_comm (x b) (y a)), (Nmul_comm (y b) (x a)).
  rewrite (Nsub_swap (Nmul (y a) (z b))), (Nsub_swap (Nmul (z a) (x b))),
          (Nsub_swap (Nmul (x a) (y b))).
  now rewrite !Nmul_Nneg_Nneg.
Qed.

Lemma angleTo_sym (a b : Vector3d) : angleTo a b = angleTo b a.
Proof. unfold angleTo; now rewrite length_cross_swap, dot_comm. Qed.

(** C4, as amended: for every pair of points a and b that carry the same
    radius, distanceTo(a,b) equals distanceTo(b,a). *)
Theorem distanceTo_symmetric (a b : LatLonV) :
  radius a = radius b -> distanceTo a b = distanceTo b a.
Proof.
  intros Hr.
  unfold distanceTo; rewrite !toVector_returns; simpl bind.
  now rewrite angleTo_sym, Hr.
Qed.

Lemma distanceTo_symmetric_witness :
  radius (point 50.066389 (-5.714722)) = radius (point 58.643889 (-3.07))
  /\ distanceTo (point 50.066389 (-5.714722)) (point 58.643889 (-3.07))
     = distanceTo (point 58.643889 (-3.07)) (point 50.066389 (-5.714722)).
Proof.
  split; [reflexivity |].
  apply (distanceTo_symmetric (point 50.066389 (-5.714722))
                              (point 58.643889 (-3.07))).
  reflexivity.
Defined.

(** ** Three points on the equator *)

Ltac fin_eq := repeat f_equal; lra.

Lemma toVector_0_0 (r : Number) :
  toVector (mkLatLonV (Fin 0) (Fin 0) r)
  = Normal (mkVector3d (Fin 1) (Fin 0) (Fin 0)).
Proof.
  rewrite toVector_returns; simpl; rewrite !toRadians_Fin; simpl.
  replace (0 * PI / 180) with 0 by lra.
  rewrite sin_0, cos_0. fin_eq.
Qed.

Lemma toVector_0_90 (r : Number) :
  toVector (mkLatLonV (Fin 0) (Fin 90) r)
  = Normal (mkVector3d (Fin 0) (Fin 1) (Fin 0)).
Proof.
  rewrite toVector_returns; simpl; rewrite !toRadians_Fin; simpl.
  replace (0 * PI / 180) with 0 by lra.
  replace (90 * PI / 180) with (PI / 2) by lra.
  rewrite sin_0, cos_0, sin_PI2, cos_PI2. fin_eq.
Qed.

Lemma angleTo_quarter_turn :
  angleTo (mkVector3d (Fin 1) (Fin 0) (Fin 0))
          (mkVector3d (Fin 0) (Fin 1) (Fin 0)) = Fin (PI / 2).
Proof.
  unfold angleTo, length, dot, cross; simpl.
  rewrite Rltb_false by lra.
  match goal with |- context [sqrt ?e] => replace e with 1 by lra end.
  rewrite sqrt_1.
  replace (1 * 0 + 0 * 1 + 0 * 0) with 0 by lra.
  unfold Math_atan2, Ratan2.
  destruct (Rlt_dec 0 0); [lra |]. destruct (Rlt_dec 0 1); [reflexivity | lra].
Qed.

(** C4 as stated fails: between two points that are a quarter turn apart
    and carry different radii, each direction scales the same angle by the
    radius of its own receiver. *)
Lemma distanceTo_own_radius :
  distanceTo (mkLatLonV (Fin 0) (Fin 0) (Fin 6371))
             (mkLatLonV (Fin 0) (Fin 90) (Fin 3390))
  = Normal (Fin (PI / 2 * 6371))
  /\ distanceTo (mkLatLonV (Fin 0) (Fin 90) (Fin 3390))
                (mkLatLonV (Fin 0) (Fin 0) (Fin 6371))
     = Normal (Fin (PI / 2 * 3390))
  /\ distanceTo (mkLatLonV (Fin 0) (Fin 0) (Fin 6371))
                (mkLatLonV (Fin 0) (Fin 90) (Fin 3390))
     <> distanceTo (mkLatLonV (Fin 0) (Fin 90) (Fin 3390))
                   (mkLatLonV (Fin 0) (Fin 0) (Fin 6371)).
Proof.
  unfold distanceTo.
  rewrite toVector_0_0, toVector_0_90; simpl bind.
  rewrite <- (angleTo_sym (mkVector3d (Fin 1) (Fin 0) (Fin 0))).
  rewrite angleTo_quarter_turn; simpl.
  repeat split.
  intros H; injection H as H.
  pose proof PI_RGT_0; lra.
Qed.

(** ** Bearing from a point to itself *)

Lemma Rtrunc_1 : Rtrunc 1 = 1%Z.
Proof.
  unfold Rtrunc. destruct (Rlt_dec 1 0); [lra |].
  symmetry; apply Int_part_spec; simpl; lra.
Qed.

Lemma Nmod_360_360 : Nmod (Fin 360) (Fin 360) = Fin 0.
Proof.
  simpl. rewrite Reqb_false by lra.
  replace (360 / 360) with 1 by lra.
  rewrite Rtrunc_1. fin_eq.
Qed.

Lemma Math_atan2_origin : Math_atan2 (Fin 0) (Fin 0) = Fin 0.
Proof.
  unfold Math_atan2, Ratan2.
  destruct (Rlt_dec 0 0); [lra | reflexivity].
Qed.

Lemma bearingTo_self_value (la lo : R) (r : Number) :
  bearingTo (mkLatLonV (Fin la) (Fin lo) r) (mkLatLonV (Fin la) (Fin lo) r)
  = Normal (Fin 0).
Proof.
  unfold bearingTo. rewrite toVector_returns; simpl bind.
  rewrite !toRadians_Fin; simpl Math_cos; simpl Math_sin; simpl Nmul.
  set (a := cos (la * PI / 180) * cos (lo * PI / 180)).
  set (b := cos (la * PI / 180) * sin (lo * PI / 180)).
  set (c := sin (la * PI / 180)).
  unfold length, dot, cross; simpl.
  repeat match goal with
         | |- context [Rltb ?e 0] => progress (replace e with 0 by ring)
         | |- context [sqrt ?e] => progress (replace e with 0 by ring)
         | |- context [Math_atan2 _ (Fin ?e)] =>
             progress (replace e with 0 by ring)
         end.
  rewrite !Rltb_false by lra. rewrite sqrt_0.
  rewrite Math_atan2_origin, toDegrees_Fin; simpl Nadd.
  replace (0 * 180 / PI + 360) with 360 by (pose proof PI_RGT_0; field; lra).
  now rewrite Nmod_360_360.
Qed.

Lemma Normal_not_throws {A : Type} (c : Completion A) (a : A) :
  c = Normal a -> ~ throws c.
Proof. intros -> [e He]; discriminate He. Qed.

Lemma bearingTo_returns (a b : LatLonV) : returns (bearingTo a b).
Proof.
  unfold bearingTo, returns; rewrite !toVector_returns; simpl bind; eauto.
Qed.

(** C5, as amended: for every point p with latitude in [-90, 90] and
    longitude in [-180, 180], bearingTo(p, p) returns normally the finite
    bearing 0 (the value of atan2(0, 0)); no error is reported, and
    bearingTo reports none on any pair of points. *)
Theorem bearingTo_self (la lo : R) (r : Number) :
  -90 <= la <= 90 -> -180 <= lo <= 180 ->
  bearingTo (mkLatLonV (Fin la) (Fin lo) r) (mkLatLonV (Fin la) (Fin lo) r)
  = Normal (Fin 0)
  /\ ~ throws (bearingTo (mkLatLonV (Fin la) (Fin lo) r)
                         (mkLatLonV (Fin la) (Fin lo) r))
  /\ (forall a b : LatLonV, returns (bearingTo a b)).
Proof.
  intros _ _.
  split; [apply bearingTo_self_value |].
  split; [| exact bearingTo_returns].
  eapply Normal_not_throws, bearingTo_self_value.
Qed.

Lemma bearingTo_self_witness :
  (-90 <= 51.4778 <= 90 /\ -180 <= -0.0015 <= 180)
  /\ bearingTo (mkLatLonV (Fin 51.4778) (Fin (-0.0015)) (Fin 6371))
               (mkLatLonV (Fin 51.4778) (Fin (-0.0015)) (Fin 6371))
     = Normal (Fin 0)
  /\ ~ throws (bearingTo (mkLatLonV (Fin 51.4778) (Fin (-0.0015)) (Fin 6371))
                         (mkLatLonV (Fin 51.4778) (Fin (-0.0015)) (Fin 6371)))
  /\ (forall a b : LatLonV, returns (bearingTo a b)).
Proof.
  split; [lra |].
  apply (bearingTo_self 51.4778 (-0.0015) (Fin 6371)); lra.
Defined.

(** C5 as stated fails: the bearing from the point 0N 0E to itself is
    returned, and it is the number 0. *)
Lemma bearingTo_self_finite :
  bearingTo (point 0 0) (point 0 0) = Normal (Fin 0)
  /\ ~ throws (bearingTo (point 0 0) (point 0 0)).
Proof.
  split; [apply bearingTo_self_value |].
  eapply Normal_not_throws, bearingTo_self_value.
Qed.

(** ** Intersection *)

Lemma greatCircle_returns (p : LatLonV) (b : Value) : returns (greatCircle p b).
Proof. unfold greatCircle, returns; eauto. Qed.

Lemma greatCircle_not_a_number (p : LatLonV) (b : Value) :
  ToNumber b = NaN -> greatCircle p b = Normal NaN_vector.
Proof.
  intros Hb. unfold greatCircle, NaN_vector; rewrite Hb, toRadians_NaN.
  simpl Math_sin; simpl Math_cos.
  now rewrite !Nmul_NaN_r, !Nsub_NaN_r.
Qed.

(** With two bearings the source does what it says. *)
Lemma intersection_bearings (s1 s2 : LatLonV) (b1 b2 : Number) :
  intersection s1 (VNumber b1) s2 (VNumber b2)
  = described_intersection s1 (VNumber b1) s2 (VNumber b2).
Proof. reflexivity. Qed.

Lemma greatCircle_0_0_north :
  greatCircle (point 0 0) (VNumber (Fin 0))
  = Normal (mkVector3d (Fin 0) (Fin (-1)) (Fin 0)).
Proof.
  unfold greatCircle, point; simpl; rewrite !toRadians_Fin; simpl.
  replace (0 * PI / 180) with 0 by lra.
  rewrite sin_0, cos_0. fin_eq.
Qed.

Lemma toLatLon_x_axis :
  toLatLon (mkVector3d (Fin 1) (Fin 0) (Fin 0)) = Normal (point 0 0).
Proof.
  unfold toLatLon, new_LatLonV, point; simpl.
  rewrite Rltb_false by lra.
  replace (1 * 1 + 0 * 0) with 1 by lra. rewrite sqrt_1.
  assert (H : Ratan2 0 1 = 0).
  { unfold Ratan2. destruct (Rlt_dec 0 1); [| lra].
    replace (0 / 1) with 0 by lra. apply atan_0. }
  rewrite H, toDegrees_Fin.
  replace (0 * 180 / PI) with 0 by (pose proof PI_RGT_0; field; lra).
  reflexivity.
Qed.

(** C2 on the source: an endpoint never selects the endpoint branch
    ([typeof] of a point is "object", never "LatLonV"); it is converted
    with [Number] and taken as the bearing NaN, so every call with an
    endpoint returns the point with NaN coordinates.  For the equator
    (from 0N 0E to 0N 90E) and the meridian heading north from 0N 0E the
    described intersection is 0N 0E. *)
Theorem intersection_endpoint_as_bearing :
  (forall (s1 e1 s2 : LatLonV) (v2 : Value),
      intersection s1 (VLatLonV e1) s2 v2 = Normal NaN_point)
  /\ intersection (point 0 0) (VLatLonV (point 0 90))
                  (point 0 0) (VNumber (Fin 0)) = Normal NaN_point
  /\ described_intersection (point 0 0) (VLatLonV (point 0 90))
                            (point 0 0) (VNumber (Fin 0))
     = Normal (point 0 0).
Proof.
  assert (H : forall (s1 e1 s2 : LatLonV) (v2 : Value),
             intersection s1 (VLatLonV e1) s2 v2 = Normal NaN_point).
  { intros s1 e1 s2 v2. unfold intersection.
    rewrite !typeof_never_LatLonV.
    rewrite (greatCircle_not_a_number s1 (VLatLonV e1)) by reflexivity.
    destruct (greatCircle_returns s2 v2) as [c2 ->]; simpl bind.
    rewrite cross_NaN_l. apply toLatLon_NaN_vector. }
  split; [exact H |]. split; [apply H |].
  unfold described_intersection, described_plane.
  rewrite greatCircle_0_0_north.
  etransitivity; [| apply toLatLon_x_axis].
  unfold point; rewrite toVector_0_0, toVector_0_90; simpl bind.
  f_equal. unfold cross; simpl. fin_eq.
Qed.

(** ** Polygon enclosure and mean *)

Lemma equals_throws (this : LatLonV) (v : Value) :
  equals this v = Throw (ReferenceError "points is not defined").
Proof. reflexivity. Qed.

Lemma enclosedBy_nonempty (this p : LatLonV) (ps : list LatLonV) :
  enclosedBy this (p :: ps)
  = (Throw (ReferenceError "points is not defined"), p :: ps).
Proof. reflexivity. Qed.

Lemma enclosedBy_empty (this : LatLonV) :
  enclosedBy this []
  = (Throw (TypeError "Cannot read property equals of undefined"), []).
Proof. reflexivity. Qed.

Lemma indices_0_cons (k : nat) :
  indices 0 (Z.of_nat (S k)) = 0%Z :: map Z.of_nat (seq 1 k).
Proof. unfold indices; rewrite Nat2Z.id; reflexivity. Qed.

Lemma meanOf_nonempty (p : LatLonV) (ps : list LatLonV) :
  meanOf (p :: ps) = (Throw (TypeError "m.plus is not a function"), p :: ps).
Proof.
  unfold meanOf, bindA, lift, array_length; simpl new_LatLonV; cbv iota beta.
  change (List.length (p :: ps)) with (S (List.length ps)).
  rewrite indices_0_cons. reflexivity.
Qed.

Lemma meanOf_empty :
  meanOf [] = (Throw (TypeError "m.unit is not a function"), []).
Proof. reflexivity. Qed.

(** C3 on the source: on every polygon [enclosedBy] throws in its first
    statement ([equals] reads the undeclared [points]) and returns neither
    true nor false; so it does on the triangle (-1,-1), (-1,1), (1,0)
    around the point 0N 0E. *)
Theorem enclosedBy_always_throws :
  (forall (this p : LatLonV) (ps : list LatLonV),
      fst (enclosedBy this (p :: ps))
      = Throw (ReferenceError "points is not defined"))
  /\ fst (enclosedBy (point 0 0)
            [point (-1) (-1); point (-1) 1; point 1 0])
     = Throw (ReferenceError "points is not defined").
Proof. split; [intros this p ps |]; now rewrite enclosedBy_nonempty. Qed.

(** C7 on the source: on every non-empty list [meanOf] throws in the first
    iteration, because it calls [plus] on a point; so it does on the
    one-element list holding 0N 0E. *)
Theorem meanOf_always_throws :
  (forall (p : LatLonV) (ps : list LatLonV),
      fst (meanOf (p :: ps)) = Throw (TypeError "m.plus is not a function"))
  /\ fst (meanOf [point 0 0]) = Throw (TypeError "m.plus is not a function").
Proof. split; [intros p ps |]; now rewrite meanOf_nonempty. Qed.

(** The array model does record a [pop]: had the condition of the first
    statement of [enclosedBy] been reached and true, the array would have
    lost its last point. *)
Lemma array_pop_shortens (p : LatLonV) (ps : list LatLonV) :
  List.length (snd (array_pop (p :: ps))) = List.length ps.
Proof.
  unfold array_pop; cbv [snd].
  revert p; induction ps as [| q qs IH]; intros p; [reflexivity |].
  change (removelast (p :: q :: qs)) with (p :: removelast (q :: qs)).
  simpl List.length; f_equal; apply IH.
Qed.

(** X30: enclosedBy and meanOf throw on every call, and they throw before
    any change to their array: at the throw the array holds the same
    points as before the call ([points.pop()] is never reached). *)
Theorem array_unchanged_at_throw (this : LatLonV) (points : list LatLonV) :
  (exists e, enclosedBy this points = (Throw e, points))
  /\ (exists e, meanOf points = (Throw e, points)).
Proof.
  destruct points as [| p ps].
  - rewrite enclosedBy_empty, meanOf_empty; eauto.
  - rewrite enclosedBy_nonempty, meanOf_nonempty; eauto.
Qed.

(** ** Radius of lifted points *)

Lemma midpointTo_radius (a b : LatLonV) :
  exists la lo, midpointTo a b = Normal (mkLatLonV la lo (Fin 6371)).
Proof.
  unfold midpointTo; rewrite !toVector_returns; simpl bind.
  apply toLatLon_radius.
Qed.

Lemma destinationPoint_radius (p : LatLonV) (bearing distance : Value) :
  exists la lo,
    destinationPoint p bearing distance = Normal (mkLatLonV la lo (Fin 6371)).
Proof.
  unfold destinationPoint.
  destruct (greatCircle_returns p bearing) as [c ->].
  rewrite toVector_returns; simpl bind.
  apply toLatLon_radius.
Qed.

Lemma intersection_radius (s1 s2 : LatLonV) (v1 v2 : Value) :
  exists la lo, intersection s1 v1 s2 v2 = Normal (mkLatLonV la lo (Fin 6371)).
Proof.
  unfold intersection. rewrite !typeof_never_LatLonV.
  destruct (greatCircle_returns s1 v1) as [c1 ->].
  destruct (greatCircle_returns s2 v2) as [c2 ->]; simpl bind.
  apply toLatLon_radius.
Qed.

(** C10: for every input point with any radius r, every operation that
    returns a point by lifting a vector through toLatLon (midpointTo,
    destinationPoint, intersection) produces a point whose radius field is
    the default 6371, whatever r is. *)
Theorem lifted_point_has_default_radius :
  (forall a b : LatLonV,
      exists la lo, midpointTo a b = Normal (mkLatLonV la lo (Fin 6371)))
  /\ (forall (p : LatLonV) (bearing distance : Value),
         exists la lo,
           destinationPoint p bearing distance
           = Normal (mkLatLonV la lo (Fin 6371)))
  /\ (forall (s1 s2 : LatLonV) (v1 v2 : Value),
         exists la lo,
           intersection s1 v1 s2 v2 = Normal (mkLatLonV la lo (Fin 6371))).
Proof.
  split; [exact midpointTo_radius |].
  split; [exact destinationPoint_radius | exact intersection_radius].
Qed.

(** ** Non-finite input *)

Lemma new_LatLonV_numbers (la lo r : Number) :
  new_LatLonV (VNumber la) (VNumber lo) (VNumber r)
  = Normal (mkLatLonV la lo r).
Proof. reflexivity. Qed.

Lemma toVector_NaN_latitude (lo r : Number) :
  toVector (mkLatLonV NaN lo r) = Normal NaN_vector.
Proof. reflexivity. Qed.

Lemma toVector_infinite_latitude (s : bool) (lo r : Number) :
  toVector (mkLatLonV (Inf s) lo r) = Normal NaN_vector.
Proof.
  rewrite toVector_returns; simpl lat; simpl lon.
  destruct (toRadians_Inf s) as [-> ->]. reflexivity.
Qed.

Lemma destinationPoint_returns (p : LatLonV) (bearing distance : Value) :
  returns (destinationPoint p bearing distance).
Proof.
  destruct (destinationPoint_radius p bearing distance) as (la & lo & ->).
  unfold returns; eauto.
Qed.

(** C8, as amended: no numeric input is rejected.  For every latitude,
    longitude and radius, finite or not, the constructor returns the point
    that holds them; toVector, greatCircle and destinationPoint return
    normally on every point, bearing and distance; with a latitude that is
    NaN or infinite, toVector returns the vector (NaN, NaN, NaN). *)
Theorem nonfinite_input_propagates :
  (forall la lo r : Number,
      new_LatLonV (VNumber la) (VNumber lo) (VNumber r)
      = Normal (mkLatLonV la lo r))
  /\ (forall p : LatLonV, returns (toVector p))
  /\ (forall (p : LatLonV) (bearing : Value), returns (greatCircle p bearing))
  /\ (forall (p : LatLonV) (bearing distance : Value),
         returns (destinationPoint p bearing distance))
  /\ (forall lo r : Number,
         toVector (mkLatLonV NaN lo r) = Normal NaN_vector)
  /\ (forall (s : bool) (lo r : Number),
         toVector (mkLatLonV (Inf s) lo r) = Normal NaN_vector).
Proof.
  split; [exact new_LatLonV_numbers |].
  split; [intros p; rewrite toVector_returns; unfold returns; eauto |].
  split; [exact greatCircle_returns |].
  split; [exact destinationPoint_returns |].
  split; [exact toVector_NaN_latitude | exact toVector_infinite_latitude].
Qed.

(** C8 as stated fails: the point built from the latitude NaN and the
    longitude +Infinity is constructed and lowered to a vector without any
    error. *)
Lemma nonfinite_input_accepted :
  new_LatLonV (VNumber NaN) (VNumber (Inf false)) VUndefined
  = Normal (mkLatLonV NaN (Inf false) (Fin 6371))
  /\ toVector (mkLatLonV NaN (Inf false) (Fin 6371)) = Normal NaN_vector
  /\ ~ throws (p <- new_LatLonV (VNumber NaN) (VNumber (Inf false))
                                VUndefined ;;
               toVector p).
Proof.
  split; [reflexivity |]. split; [reflexivity |].
  intros [e He]; discriminate He.
Qed.

(** * Further properties of the source *)

(** ** The angle function, continued *)

Lemma atan_pos (t : R) : 0 < t -> 0 < atan t.
Proof. intros H; rewrite <- atan_0; now apply atan_increasing. Qed.

Lemma atan_neg (t : R) : t < 0 -> atan t < 0.
Proof. intros H; rewrite <- atan_0; now apply atan_increasing. Qed.

Lemma Ratan2_range (y x : R) : - PI < Ratan2 y x <= PI.
Proof.
  pose proof PI_RGT_0 as Hpi. unfold Ratan2.
  destruct (Rlt_dec 0 x) as [Hx | Hx].
  - pose proof (atan_bound (y / x)); lra.
  - destruct (Rlt_dec x 0) as [Hx' | Hx'].
    + pose proof (atan_bound (y / x)) as Hb.
      destruct (Rlt_dec y 0) as [Hy | Hy].
      * assert (0 < y / x).
        { replace (y / x) with ((- y) * / (- x)) by (field; lra).
          apply Rmult_lt_0_compat; [lra | apply Rinv_0_lt_compat; lra]. }
        pose proof (atan_pos (y / x)); lra.
      * assert (Hq : y / x <= 0).
        { replace (y / x) with (- (y * / (- x))) by (field; lra).
          assert (0 <= y * / (- x)); [| lra].
          apply Rmult_le_pos; [lra |].
          apply Rlt_le, Rinv_0_lt_compat; lra. }
        destruct Hq as [Hq | Hq].
        -- pose proof (atan_neg (y / x) Hq); lra.
        -- rewrite Hq, atan_0; lra.
    + destruct (Rlt_dec 0 y); [lra |]. destruct (Rlt_dec y 0); lra.
Qed.

(** With a non-negative abscissa the angle lies in the right half plane. *)
Lemma Ratan2_right (y x : R) : 0 <= x -> - (PI / 2) <= Ratan2 y x <= PI / 2.
Proof.
  intros Hx. pose proof PI_RGT_0 as Hpi. unfold Ratan2.
  destruct (Rlt_dec 0 x).
  - pose proof (atan_bound (y / x)); lra.
  - destruct (Rlt_dec x 0); [lra |].
    destruct (Rlt_dec 0 y); [lra |]. destruct (Rlt_dec y 0); lra.
Qed.

(** With a non-negative ordinate the angle lies in the upper half plane. *)
Lemma Ratan2_upper (y x : R) : 0 <= y -> 0 <= Ratan2 y x <= PI.
Proof.
  intros Hy. pose proof PI_RGT_0 as Hpi.
  pose proof (Ratan2_range y x) as Hr. split; [| lra].
  unfold Ratan2.
  destruct (Rlt_dec 0 x) as [Hx | Hx].
  - destruct Hy as [Hy | <-].
    + apply Rlt_le, atan_pos.
      apply Rmult_lt_0_compat; [lra | now apply Rinv_0_lt_compat].
    + replace (0 / x) with 0 by (field; lra). rewrite atan_0; lra.
  - destruct (Rlt_dec x 0) as [Hx' | Hx'].
    + destruct (Rlt_dec y 0); [lra |].
      pose proof (atan_bound (y / x)); lra.
    + destruct (Rlt_dec 0 y); [lra |]. destruct (Rlt_dec y 0); lra.
Qed.

(** Every point of the plane but the origin lies at its distance from the
    origin in the direction of its angle. *)
Lemma Ratan2_polar_inv (y x : R) :
  (x <> 0 \/ y <> 0) ->
  sqrt (x * x + y * y) * cos (Ratan2 y x) = x
  /\ sqrt (x * x + y * y) * sin (Ratan2 y x) = y.
Proof.
  intros Hnz.
  set (r := sqrt (x * x + y * y)).
  assert (Hsum : 0 < x * x + y * y) by (destruct Hnz; nra).
  assert (Hr : 0 < r) by (now apply sqrt_lt_R0).
  assert (Hrr : r * r = x * x + y * y) by (apply sqrt_sqrt; lra).
  assert (Hatan : forall u, x <> 0 -> u = atan (y / x) ->
                  r * cos u = Rabs x /\ x * sin u = y * cos u).
  { intros u Hx ->.
    pose proof (atan_bound (y / x)) as Hb.
    assert (Hc : 0 < cos (atan (y / x))) by (apply cos_gt_0; lra).
    assert (Ht : sin (atan (y / x)) = (y / x) * cos (atan (y / x))).
    { pose proof (tan_atan (y / x)) as Ht. unfold tan in Ht.
      rewrite <- Ht at 2. field; lra. }
    pose proof (sin2_cos2 (atan (y / x))) as H1. unfold Rsqr in H1.
    assert (Hs : x * sin (atan (y / x)) = y * cos (atan (y / x))).
    { rewrite Ht; field; lra. }
    split; [| exact Hs].
    apply Rsqr_inj.
    - apply Rlt_le, Rmult_lt_0_compat; lra.
    - apply Rabs_pos.
    - rewrite <- Rsqr_abs. unfold Rsqr.
      set (c := cos (atan (y / x))) in *. set (s := sin (atan (y / x))) in *.
      assert (x * x * (s * s) = y * y * (c * c)) by nsatz.
      nsatz. }
  unfold Ratan2.
  destruct (Rlt_dec 0 x) as [Hx | Hx].
  - destruct (Hatan (atan (y / x))) as [H1 H2]; [lra | reflexivity |].
    rewrite Rabs_right in H1 by lra. split; [exact H1 |].
    apply (Rmult_eq_reg_l x); [nsatz | lra].
  - destruct (Rlt_dec x 0) as [Hx' | Hx'].
    + destruct (Hatan (atan (y / x))) as [H1 H2]; [lra | reflexivity |].
      rewrite Rabs_left in H1 by lra.
      assert (H3 : r * sin (atan (y / x)) = - y).
      { apply (Rmult_eq_reg_l x); [nsatz | lra]. }
      destruct (Rlt_dec y 0).
      * unfold Rminus. rewrite cos_plus, sin_plus, cos_neg, sin_neg, cos_PI, sin_PI.
        split; nra.
      * rewrite cos_plus, sin_plus, cos_PI, sin_PI. split; nra.
    + assert (x = 0) by lra. subst x.
      assert (Hy : y <> 0) by (destruct Hnz; [lra | assumption]).
      assert (Hry : r * r = y * y) by lra.
      destruct (Rlt_dec 0 y).
      * rewrite cos_PI2, sin_PI2. split; [ring |]. nra.
      * destruct (Rlt_dec y 0); [| lra].
        rewrite cos_neg, sin_neg, cos_PI2, sin_PI2. split; [ring |]. nra.
Qed.

(** The angle does not depend on the distance from the origin. *)
Lemma Ratan2_scale (k y x : R) : 0 < k -> Ratan2 (k * y) (k * x) = Ratan2 y x.
Proof.
  intros Hk.
  destruct (Req_dec_T x 0) as [Hx | Hx]; [destruct (Req_dec_T y 0) as [Hy | Hy] |].
  - subst; now rewrite !Rmult_0_r.
  - destruct (Ratan2_polar_inv y x (or_intror Hy)) as [H1 H2].
    rewrite <- H1 at 1. rewrite <- H2 at 1.
    rewrite <- !Rmult_assoc. apply Ratan2_polar; [| apply Ratan2_range].
    apply Rmult_lt_0_compat; [lra |]. apply sqrt_lt_R0. nra.
  - destruct (Ratan2_polar_inv y x (or_introl Hx)) as [H1 H2].
    rewrite <- H1 at 1. rewrite <- H2 at 1.
    rewrite <- !Rmult_assoc. apply Ratan2_polar; [| apply Ratan2_range].
    apply Rmult_lt_0_compat; [lra |]. apply sqrt_lt_R0. nra.
Qed.

(** ** n-vectors *)

Lemma unit_circle (t : R) : cos t * cos t + sin t * sin t = 1.
Proof. pose proof (sin2_cos2 t) as H; unfold Rsqr in H; lra. Qed.

(** In exact arithmetic, for all real arguments. *)
Lemma toVector_unit_length_exact (la lo : R) (r : Number) :
  exists v, toVector (mkLatLonV (Fin la) (Fin lo) r) = Normal v
            /\ dot v v = Fin 1 /\ length v = Fin 1.
Proof.
  eexists; split; [apply toVector_returns |].
  simpl lat; simpl lon. rewrite !toRadians_Fin.
  assert (H : dot (mkVector3d
                     (Nmul (Math_cos (Fin (la * PI / 180)))
                           (Math_cos (Fin (lo * PI / 180))))
                     (Nmul (Math_cos (Fin (la * PI / 180)))
                           (Math_sin (Fin (lo * PI / 180))))
                     (Math_sin (Fin (la * PI / 180))))
                  (mkVector3d
                     (Nmul (Math_cos (Fin (la * PI / 180)))
                           (Math_cos (Fin (lo * PI / 180))))
                     (Nmul (Math_cos (Fin (la * PI / 180)))
                           (Math_sin (Fin (lo * PI / 180))))
                     (Math_sin (Fin (la * PI / 180)))) = Fin 1).
  { unfold dot; simpl. f_equal.
    pose proof (unit_circle (la * PI / 180)).
    pose proof (unit_circle (lo * PI / 180)). nsatz. }
  split; [exact H |].
  unfold length; rewrite H, Math_sqrt_Fin by lra. now rewrite sqrt_1.
Qed.

Lemma toLatLon_Fin (a b c : R) :
  toLatLon (mkVector3d (Fin a) (Fin b) (Fin c))
  = Normal (mkLatLonV
              (Fin (Ratan2 c (sqrt (a * a + b * b)) * 180 / PI))
              (Fin (Ratan2 b a * 180 / PI)) (Fin 6371)).
Proof.
  unfold toLatLon, new_LatLonV; simpl.
  rewrite Rltb_false by nra.
  now rewrite !toDegrees_Fin.
Qed.

(** In exact arithmetic, for all real arguments. *)
Lemma toLatLon_range_exact (a b c : R) :
  exists la lo,
    toLatLon (mkVector3d (Fin a) (Fin b) (Fin c))
    = Normal (mkLatLonV (Fin la) (Fin lo) (Fin 6371))
    /\ -90 <= la <= 90 /\ -180 < lo <= 180.
Proof.
  pose proof PI_RGT_0 as Hpi.
  do 2 eexists; split; [apply toLatLon_Fin |].
  pose proof (Ratan2_right c (sqrt (a * a + b * b)) (sqrt_pos _)) as [H1 H2].
  pose proof (Ratan2_range b a) as [H3 H4].
  assert (Hdiv : forall u, u * 180 / PI = u * (180 / PI))
    by (intros u; field; lra).
  assert (Hk : 0 < 180 / PI)
    by (apply Rmult_lt_0_compat; [lra | now apply Rinv_0_lt_compat]).
  assert (Hpk : PI * (180 / PI) = 180) by (field; lra).
  rewrite !Hdiv. repeat split; nra.
Qed.

(** In exact arithmetic, for all real arguments. *)
Lemma toLatLon_scale_invariant_exact (k a b c : R) :
  0 < k ->
  toLatLon (times (mkVector3d (Fin a) (Fin b) (Fin c)) (Fin k))
  = toLatLon (mkVector3d (Fin a) (Fin b) (Fin c)).
Proof.
  intros Hk. unfold times; simpl Nmul. rewrite !toLatLon_Fin.
  replace (sqrt (a * k * (a * k) + b * k * (b * k)))
    with (k * sqrt (a * a + b * b)).
  2:{ symmetry; apply sqrt_lem_1.
      - nra.
      - apply Rmult_le_pos; [lra | apply sqrt_pos].
      - pose proof (sqrt_sqrt (a * a + b * b)) as Hs.
        replace (k * sqrt (a * a + b * b) * (k * sqrt (a * a + b * b)))
          with (k * k * (sqrt (a * a + b * b) * sqrt (a * a + b * b))) by ring.
        rewrite Hs by nra. ring. }
  rewrite (Rmult_comm a k), (Rmult_comm b k), (Rmult_comm c k).
  now rewrite !Ratan2_scale.
Qed.

Lemma unit_of_unit_vector (a b c : R) :
  a * a + b * b + c * c = 1 ->
  unit (mkVector3d (Fin a) (Fin b) (Fin c)) = mkVector3d (Fin a) (Fin b) (Fin c).
Proof.
  intros H. unfold unit, length, dot; simpl.
  rewrite H, Rltb_false by lra. rewrite sqrt_1, Reqb_false by lra.
  f_equal; f_equal; field.
Qed.

Lemma toVector_toLatLon_unit (a b c : R) :
  (a <> 0 \/ b <> 0 \/ c <> 0) ->
  (p <- toLatLon (mkVector3d (Fin a) (Fin b) (Fin c)) ;; toVector p)
  = Normal (unit (mkVector3d (Fin a) (Fin b) (Fin c))).
Proof.
  intros Hnz. pose proof PI_RGT_0 as Hpi.
  rewrite toLatLon_Fin; simpl bind. rewrite toVector_returns.
  simpl lat; simpl lon. rewrite !toRadians_Fin.
  set (r := sqrt (a * a + b * b)).
  replace (Ratan2 c r * 180 / PI * PI / 180) with (Ratan2 c r) by (field; lra).
  replace (Ratan2 b a * 180 / PI * PI / 180) with (Ratan2 b a) by (field; lra).
  assert (Hr0 : 0 <= r) by apply sqrt_pos.
  assert (Hrr : r * r = a * a + b * b) by (apply sqrt_sqrt; nra).
  assert (Hsum : 0 < a * a + b * b + c * c) by (destruct Hnz as [H | [H | H]]; nra).
  unfold unit, length, dot; simpl.
  rewrite Rltb_false by lra.
  set (n := sqrt (a * a + b * b + c * c)).
  assert (Hn : 0 < n) by (now apply sqrt_lt_R0).
  rewrite !Reqb_false by lra.
  assert (Hnn : sqrt (r * r + c * c) = n) by (unfold n; now rewrite Hrr).
  assert (Hphi : n * cos (Ratan2 c r) = r /\ n * sin (Ratan2 c r) = c).
  { rewrite <- Hnn. apply Ratan2_polar_inv.
    destruct (Req_dec_T r 0) as [H0 | H0]; [right | now left].
    rewrite H0 in Hrr. destruct Hnz as [H | [H | H]]; [nra | nra | exact H]. }
  destruct Hphi as [Hc Hs].
  assert (Hlam : r * cos (Ratan2 b a) = a /\ r * sin (Ratan2 b a) = b).
  { destruct (Req_dec_T r 0) as [H0 | H0].
    - rewrite H0 in *. assert (a = 0) by nra. assert (b = 0) by nra. lra.
    - apply Ratan2_polar_inv.
      destruct (Req_dec_T a 0) as [Ha | Ha]; [right | now left].
      subst a. intros Hb; subst b. apply H0. nra. }
  destruct Hlam as [Hca Hsa].
  f_equal. f_equal; f_equal.
  - apply (Rmult_eq_reg_l n); [| lra].
    replace (n * (a / n)) with a by (field; lra). nsatz.
  - apply (Rmult_eq_reg_l n); [| lra].
    replace (n * (b / n)) with b by (field; lra). nsatz.
  - apply (Rmult_eq_reg_l n); [| lra].
    replace (n * (c / n)) with c by (field; lra). exact Hs.
Qed.

Lemma toVector_toLatLon_identity (a b c : R) :
  a * a + b * b + c * c = 1 ->
  (p <- toLatLon (mkVector3d (Fin a) (Fin b) (Fin c)) ;; toVector p)
  = Normal (mkVector3d (Fin a) (Fin b) (Fin c)).
Proof.
  intros H. rewrite toVector_toLatLon_unit.
  - now rewrite unit_of_unit_vector.
  - destruct (Req_dec_T a 0) as [Ha | Ha]; [| now left].
    destruct (Req_dec_T b 0) as [Hb | Hb]; [| now right; left].
    right; right. intros Hc. subst. lra.
Qed.

(** X6: lifting a finite vector of length 1 and lowering the point again
    gives the vector back, the poles included. *)
Theorem toVector_toLatLon_unit_vector (a b c : R) :
  a * a + b * b + c * c = 1 ->
  (p <- toLatLon (mkVector3d (Fin a) (Fin b) (Fin c)) ;; toVector p)
  = Normal (mkVector3d (Fin a) (Fin b) (Fin c)).
Proof. apply toVector_toLatLon_identity. Qed.

Lemma toVector_toLatLon_unit_vector_witness :
  0 * 0 + 0 * 0 + 1 * 1 = 1
  /\ (p <- toLatLon (mkVector3d (Fin 0) (Fin 0) (Fin 1)) ;; toVector p)
     = Normal (mkVector3d (Fin 0) (Fin 0) (Fin 1)).
Proof.
  assert (H : 0 * 0 + 0 * 0 + 1 * 1 = 1) by lra.
  split; [exact H |]. apply (toVector_toLatLon_unit_vector 0 0 1 H).
Defined.

(** ** Great circles *)

Lemma toVector_Fin (la lo : R) (r : Number) :
  toVector (mkLatLonV (Fin la) (Fin lo) r)
  = Normal (mkVector3d
              (Fin (cos (la * PI / 180) * cos (lo * PI / 180)))
              (Fin (cos (la * PI / 180) * sin (lo * PI / 180)))
              (Fin (sin (la * PI / 180)))).
Proof. rewrite toVector_returns; simpl; now rewrite !toRadians_Fin. Qed.

Lemma greatCircle_Fin (la lo th : R) (r : Number) :
  greatCircle (mkLatLonV (Fin la) (Fin lo) r) (VNumber (Fin th))
  = Normal (mkVector3d
              (Fin (sin (lo * PI / 180) * cos (th * PI / 180)
                    - sin (la * PI / 180) * cos (lo * PI / 180)
                      * sin (th * PI / 180)))
              (Fin (- cos (lo * PI / 180) * cos (th * PI / 180)
                    - sin (la * PI / 180) * sin (lo * PI / 180)
                      * sin (th * PI / 180)))
              (Fin (cos (la * PI / 180) * sin (th * PI / 180)))).
Proof. unfold greatCircle; simpl; now rewrite !toRadians_Fin. Qed.

(** In exact arithmetic, for all real arguments. *)
Lemma greatCircle_unit_perpendicular_exact (la lo th : R) (r : Number) :
  exists v gc,
    toVector (mkLatLonV (Fin la) (Fin lo) r) = Normal v
    /\ greatCircle (mkLatLonV (Fin la) (Fin lo) r) (VNumber (Fin th))
       = Normal gc
    /\ length gc = Fin 1 /\ dot gc v = Fin 0.
Proof.
  do 2 eexists. split; [apply toVector_Fin |].
  split; [apply greatCircle_Fin |].
  pose proof (unit_circle (la * PI / 180)).
  pose proof (unit_circle (lo * PI / 180)).
  pose proof (unit_circle (th * PI / 180)).
  unfold length, dot; simpl. split.
  - match goal with |- context [Rltb ?e 0] => replace e with 1 by nsatz end.
    rewrite Rltb_false by lra. now rewrite sqrt_1.
  - f_equal; nsatz.
Qed.

Lemma greatCircle_opposite_bearing (p : LatLonV) (th : R) :
  exists gc,
    greatCircle p (VNumber (Fin th)) = Normal gc
    /\ greatCircle p (VNumber (Fin (th + 180)))
       = Normal (mkVector3d (Nneg (x gc)) (Nneg (y gc)) (Nneg (z gc))).
Proof.
  eexists; split; [reflexivity |].
  unfold greatCircle; simpl ToNumber; rewrite !toRadians_Fin.
  replace ((th + 180) * PI / 180) with (th * PI / 180 + PI) by field.
  simpl Math_sin; simpl Math_cos. rewrite neg_sin, neg_cos.
  cbv [x y z].
  destruct (toRadians (lat p)) as [| s | u], (toRadians (lon p)) as [| t | w];
    simpl; try reflexivity;
    (do 2 f_equal; first [reflexivity | f_equal; ring]).
Qed.

(** ** Distance *)

Lemma angleTo_Fin (a b c a' b' c' s : R) :
  0 <= s ->
  s * s = (b * c' - c * b') * (b * c' - c * b')
          + (c * a' - a * c') * (c * a' - a * c')
          + (a * b' - b * a') * (a * b' - b * a') ->
  angleTo (mkVector3d (Fin a) (Fin b) (Fin c))
          (mkVector3d (Fin a') (Fin b') (Fin c'))
  = Fin (Ratan2 s (a * a' + b * b' + c * c')).
Proof.
  intros Hs Hss. unfold angleTo, length, dot, cross; simpl.
  rewrite <- Hss. rewrite Rltb_false by nra.
  now rewrite (sqrt_lem_1 (s * s) s) by nra.
Qed.

Lemma angleTo_Fin_range (a b c a' b' c' : R) :
  exists t, angleTo (mkVector3d (Fin a) (Fin b) (Fin c))
                    (mkVector3d (Fin a') (Fin b') (Fin c')) = Fin t
            /\ 0 <= t <= PI.
Proof.
  set (e := (b * c' - c * b') * (b * c' - c * b')
            + (c * a' - a * c') * (c * a' - a * c')
            + (a * b' - b * a') * (a * b' - b * a')).
  assert (He : 0 <= e).
  { unfold e.
    pose proof (Rle_0_sqr (b * c' - c * b')) as H1.
    pose proof (Rle_0_sqr (c * a' - a * c')) as H2.
    pose proof (Rle_0_sqr (a * b' - b * a')) as H3.
    unfold Rsqr in *. lra. }
  exists (Ratan2 (sqrt e) (a * a' + b * b' + c * c')). split.
  - apply angleTo_Fin; [apply sqrt_pos | now apply sqrt_sqrt].
  - apply Ratan2_upper, sqrt_pos.
Qed.

Lemma Ratan2_0_pos (x : R) : 0 < x -> Ratan2 0 x = 0.
Proof.
  intros H. unfold Ratan2. destruct (Rlt_dec 0 x); [| lra].
  replace (0 / x) with 0 by (field; lra). apply atan_0.
Qed.

Lemma Ratan2_0_neg (x : R) : x < 0 -> Ratan2 0 x = PI.
Proof.
  intros H. unfold Ratan2. destruct (Rlt_dec 0 x); [lra |].
  destruct (Rlt_dec x 0); [| lra]. destruct (Rlt_dec 0 0); [lra |].
  replace (0 / x) with 0 by (field; lra). rewrite atan_0; ring.
Qed.

(** In exact arithmetic, for all real arguments. *)
Lemma distanceTo_range_exact (la1 lo1 la2 lo2 r1 : R) (r2 : Number) :
  0 <= r1 ->
  exists d,
    distanceTo (mkLatLonV (Fin la1) (Fin lo1) (Fin r1))
               (mkLatLonV (Fin la2) (Fin lo2) r2) = Normal (Fin d)
    /\ 0 <= d <= PI * r1.
Proof.
  intros Hr. unfold distanceTo. rewrite !toVector_Fin; simpl bind.
  match goal with
  | |- context [angleTo (mkVector3d (Fin ?a) (Fin ?b) (Fin ?c))
                        (mkVector3d (Fin ?a') (Fin ?b') (Fin ?c'))] =>
      destruct (angleTo_Fin_range a b c a' b' c') as (t & -> & Ht)
  end.
  exists (t * r1). split; [reflexivity |]. nra.
Qed.

(** In exact arithmetic, for all real arguments. *)
Lemma distanceTo_self_exact (la lo r : R) :
  distanceTo (mkLatLonV (Fin la) (Fin lo) (Fin r))
             (mkLatLonV (Fin la) (Fin lo) (Fin r)) = Normal (Fin 0).
Proof.
  unfold distanceTo. rewrite !toVector_Fin; simpl bind.
  rewrite (angleTo_Fin _ _ _ _ _ _ 0) by (try lra; ring).
  pose proof (unit_circle (la * PI / 180)).
  pose proof (unit_circle (lo * PI / 180)).
  match goal with |- context [Ratan2 0 ?e] => replace e with 1 by nsatz end.
  rewrite Ratan2_0_pos by lra. simpl. f_equal; f_equal; ring.
Qed.

(** ** Bearing *)

Lemma Rtrunc_0 (q : R) : 0 <= q < 1 -> Rtrunc q = 0%Z.
Proof.
  intros H. unfold Rtrunc. destruct (Rlt_dec q 0); [lra |].
  symmetry; apply Int_part_spec; simpl; lra.
Qed.

Lemma Rtrunc_1_2 (q : R) : 1 <= q < 2 -> Rtrunc q = 1%Z.
Proof.
  intros H. unfold Rtrunc. destruct (Rlt_dec q 0); [lra |].
  symmetry; apply Int_part_spec; simpl; lra.
Qed.

Lemma Nmod_360_below (r : R) :
  0 <= r < 360 -> Nmod (Fin r) (Fin 360) = Fin r.
Proof.
  intros H. simpl. rewrite Reqb_false by lra.
  rewrite Rtrunc_0 by (split; [apply Rmult_le_pos; lra | lra]).
  f_equal; simpl; ring.
Qed.

Lemma Nmod_360_above (r : R) :
  360 <= r < 720 -> Nmod (Fin r) (Fin 360) = Fin (r - 360).
Proof.
  intros H. simpl. rewrite Reqb_false by lra.
  rewrite Rtrunc_1_2 by lra.
  f_equal; simpl; ring.
Qed.

(** The last line of [bearingTo] on an angle of (-PI, PI]. *)
Lemma normalise_bearing (t : R) :
  - PI < t <= PI ->
  exists b,
    Nmod (Nadd (toDegrees (Fin t)) (Fin 360)) (Fin 360) = Fin b
    /\ 0 <= b < 360.
Proof.
  intros Ht. pose proof PI_RGT_0 as Hpi.
  rewrite toDegrees_Fin; simpl Nadd.
  assert (Hd : -180 < t * 180 / PI <= 180).
  { assert (Hk : 0 < 180 / PI)
      by (apply Rmult_lt_0_compat; [lra | now apply Rinv_0_lt_compat]).
    assert (Hpk : PI * (180 / PI) = 180) by (field; lra).
    replace (t * 180 / PI) with (t * (180 / PI)) by (field; lra).
    split; nra. }
  destruct (Rlt_dec (t * 180 / PI + 360) 360) as [Hlt | Hge].
  - exists (t * 180 / PI + 360). split; [apply Nmod_360_below |]; lra.
  - exists (t * 180 / PI + 360 - 360). split; [apply Nmod_360_above |]; lra.
Qed.

Lemma sum_of_squares_nonneg (u v w : R) : ~ u * u + v * v + w * w < 0.
Proof.
  pose proof (Rle_0_sqr u); pose proof (Rle_0_sqr v); pose proof (Rle_0_sqr w).
  unfold Rsqr in *; lra.
Qed.

(** In exact arithmetic, for all real arguments. *)
Lemma bearingTo_range_exact (la1 lo1 la2 lo2 : R) (r1 r2 : Number) :
  exists b,
    bearingTo (mkLatLonV (Fin la1) (Fin lo1) r1)
              (mkLatLonV (Fin la2) (Fin lo2) r2) = Normal (Fin b)
    /\ 0 <= b < 360.
Proof.
  unfold bearingTo. rewrite !toVector_Fin; simpl bind.
  set (a := cos (la1 * PI / 180) * cos (lo1 * PI / 180)).
  set (b := cos (la1 * PI / 180) * sin (lo1 * PI / 180)).
  set (c := sin (la1 * PI / 180)).
  set (a' := cos (la2 * PI / 180) * cos (lo2 * PI / 180)).
  set (b' := cos (la2 * PI / 180) * sin (lo2 * PI / 180)).
  set (c' := sin (la2 * PI / 180)).
  unfold length, dot, cross; simpl.
  match goal with
  | |- context [Rltb (?u * ?u + ?v * ?v + ?w * ?w) 0] =>
      rewrite (Rltb_false (u * u + v * v + w * w) 0)
        by apply sum_of_squares_nonneg
  end.
  match goal with
  | |- context [if Rltb ?e 0 then _ else _] => destruct (Rltb e 0)
  end; cbn [Nneg Math_atan2];
    match goal with
    | |- context [Ratan2 ?s ?c] =>
        destruct (normalise_bearing (Ratan2 s c) (Ratan2_range s c))
          as (t & Ht & Hrange)
    end;
    exists t; (split; [now f_equal | exact Hrange]).
Qed.

(** In exact arithmetic, for all real arguments. *)
Lemma bearingTo_along_meridian_exact (la1 la2 lo : R) (r1 r2 : Number) :
  -90 < la1 < 90 -> -90 <= la2 <= 90 -> la1 <> la2 ->
  bearingTo (mkLatLonV (Fin la1) (Fin lo) r1) (mkLatLonV (Fin la2) (Fin lo) r2)
  = Normal (Fin (if Rlt_dec la1 la2 then 0 else 180)).
Proof.
  intros H1 H2 Hne. pose proof PI_RGT_0 as Hpi.
  unfold bearingTo. rewrite !toVector_Fin; simpl bind.
  set (phi1 := la1 * PI / 180). set (phi2 := la2 * PI / 180).
  set (lam := lo * PI / 180).
  assert (Hphi1 : - (PI / 2) < phi1 < PI / 2) by (unfold phi1; split; nra).
  assert (Hphi2 : - (PI / 2) <= phi2 <= PI / 2) by (unfold phi2; split; nra).
  assert (Ha1 : 0 < cos phi1) by (apply cos_gt_0; lra).
  pose proof (unit_circle lam) as Hlam.
  pose proof (sin_minus phi2 phi1) as Hs.
  set (a1 := cos phi1) in *. set (b1 := sin phi1) in *.
  set (a2 := cos phi2) in *. set (b2 := sin phi2) in *.
  set (c := cos lam) in *. set (d := sin lam) in *.
  unfold length, dot, cross; simpl.
  match goal with
  | |- context [sqrt ?e] => replace e with 0 by ring
  end.
  rewrite sqrt_0.
  match goal with
  | |- context [if Rltb ?e 0 then _ else _] => replace e with 0 by ring
  end.
  rewrite !Rltb_false by lra.
  match goal with
  | |- context [Math_atan2 (Fin 0) (Fin ?e)] =>
      replace e with (a1 * (b2 * a1 - a2 * b1)) by nsatz
  end.
  rewrite <- Hs. cbn [Math_atan2].
  destruct (Rlt_dec la1 la2) as [Hlt | Hge].
  - assert (0 < sin (phi2 - phi1)).
    { apply sin_gt_0; unfold phi1, phi2 in *; nra. }
    rewrite Ratan2_0_pos by (apply Rmult_lt_0_compat; lra).
    rewrite toDegrees_Fin; simpl Nadd.
    replace (0 * 180 / PI + 360) with 360 by (field; lra).
    now rewrite Nmod_360_360.
  - assert (sin (phi2 - phi1) < 0).
    { apply sin_lt_0_var; unfold phi1, phi2 in *; nra. }
    rewrite Ratan2_0_neg by nra.
    rewrite toDegrees_Fin; simpl Nadd.
    replace (PI * 180 / PI + 360) with 540 by (field; lra).
    rewrite Nmod_360_above by lra. f_equal; f_equal; lra.
Qed.

(** ** Midpoint *)

Lemma Nadd_comm (a b : Number) : Nadd a b = Nadd b a.
Proof.
  destruct a as [| s | r], b as [| t | u]; simpl; try reflexivity.
  - destruct s, t; reflexivity.
  - now rewrite Rplus_comm.
Qed.

Lemma plus_comm (u v : Vector3d) : plus u v = plus v u.
Proof.
  unfold plus.
  now rewrite (Nadd_comm (x u)), (Nadd_comm (y u)), (Nadd_comm (z u)).
Qed.

(** X13: the midpoint does not depend on the order of the two points,
    whatever their coordinates and radii. *)
Theorem midpointTo_symmetric (a b : LatLonV) :
  midpointTo a b = midpointTo b a.
Proof.
  unfold midpointTo. rewrite !toVector_returns; simpl bind.
  now rewrite plus_comm.
Qed.

(** X14: the midpoint between a point and itself is the point, on the
    default radius, for a latitude strictly between -90 and 90 and a
    longitude in (-180, 180]. *)
Theorem midpointTo_self (la lo : R) (r : Number) :
  -90 < la < 90 -> -180 < lo <= 180 ->
  midpointTo (mkLatLonV (Fin la) (Fin lo) r) (mkLatLonV (Fin la) (Fin lo) r)
  = Normal (mkLatLonV (Fin la) (Fin lo) (Fin 6371)).
Proof.
  intros Hla Hlo.
  rewrite <- (roundtrip_exact la lo r Hla Hlo).
  unfold midpointTo, roundtrip. rewrite !toVector_Fin; simpl bind.
  pose proof (unit_circle (la * PI / 180)) as H1.
  pose proof (unit_circle (lo * PI / 180)) as H2.
  set (a := cos (la * PI / 180) * cos (lo * PI / 180)).
  set (b := cos (la * PI / 180) * sin (lo * PI / 180)).
  set (c := sin (la * PI / 180)).
  assert (Hu : a * a + b * b + c * c = 1) by (unfold a, b, c; nsatz).
  f_equal. unfold unit, length, dot, plus; simpl.
  replace ((a + a) * (a + a) + (b + b) * (b + b) + (c + c) * (c + c))
    with (2 * 2) by nsatz.
  rewrite Rltb_false by lra. rewrite sqrt_square by lra.
  rewrite Reqb_false by lra.
  f_equal; f_equal; field.
Qed.

Lemma midpointTo_self_witness :
  (-90 < 51.4778 < 90 /\ -180 < -0.0015 <= 180)
  /\ midpointTo (mkLatLonV (Fin 51.4778) (Fin (-0.0015)) (Fin 3390))
                (mkLatLonV (Fin 51.4778) (Fin (-0.0015)) (Fin 3390))
     = Normal (mkLatLonV (Fin 51.4778) (Fin (-0.0015)) (Fin 6371)).
Proof.
  split; [lra |].
  apply (midpointTo_self 51.4778 (-0.0015) (Fin 3390)); lra.
Defined.

(** ** Destination *)

(** In exact arithmetic, for all real arguments. *)
Lemma destinationPoint_zero_distance_exact (la lo r th : R) :
  -90 < la < 90 -> -180 < lo <= 180 -> r <> 0 ->
  destinationPoint (mkLatLonV (Fin la) (Fin lo) (Fin r))
                   (VNumber (Fin th)) (VNumber (Fin 0))
  = Normal (mkLatLonV (Fin la) (Fin lo) (Fin 6371)).
Proof.
  intros Hla Hlo Hr.
  rewrite <- (roundtrip_exact la lo (Fin r) Hla Hlo).
  unfold destinationPoint, roundtrip.
  cbn [ToNumber radius]. rewrite Ndiv_Fin by exact Hr.
  replace (0 / r) with 0 by (field; exact Hr).
  cbn [Math_cos Math_sin]. rewrite cos_0, sin_0.
  rewrite greatCircle_Fin, !toVector_Fin; simpl bind.
  pose proof (unit_circle (la * PI / 180)) as H1.
  pose proof (unit_circle (lo * PI / 180)) as H2.
  f_equal. unfold unit, length, dot, plus, times, cross; simpl.
  match goal with
  | |- context [Rltb ?e 0] => replace e with 1 by nsatz
  end.
  rewrite Rltb_false by lra. rewrite sqrt_1, Reqb_false by lra.
  f_equal; f_equal; field.
Qed.

Lemma Math_cos_sin_of_quotient_by_zero (d : Number) :
  Math_cos (Ndiv d (Fin 0)) = NaN /\ Math_sin (Ndiv d (Fin 0)) = NaN.
Proof.
  destruct d as [| s | u]; simpl; try (split; reflexivity).
  rewrite Reqb_true by reflexivity.
  destruct (Reqb u 0); split; reflexivity.
Qed.

(** X16: on a point whose radius is 0 the destination has NaN for
    latitude and longitude, for every bearing and every distance: the
    angular distance is a quotient by zero. *)
Theorem destinationPoint_zero_radius (la lo : Number)
                                     (bearing distance : Value) :
  destinationPoint (mkLatLonV la lo (Fin 0)) bearing distance
  = Normal NaN_point.
Proof.
  unfold destinationPoint.
  destruct (greatCircle_returns (mkLatLonV la lo (Fin 0)) bearing) as [c ->].
  rewrite toVector_returns; simpl bind. simpl radius.
  destruct (Math_cos_sin_of_quotient_by_zero (ToNumber distance)) as [-> ->].
  unfold times. rewrite !Nmul_NaN_r.
  apply toLatLon_NaN_vector.
Qed.

(** The vector that [destinationPoint] builds from the n-vector [v] of the
    start, the great-circle vector [g] and the cosine [C] and sine [S] of
    the angular distance has length 1, makes the angle of [C] and [S] with
    [v], and [g] is along the cross product of the two. *)
Lemma destination_vector (vx vy vz gx gy gz C S : R) :
  vx * vx + vy * vy + vz * vz = 1 ->
  gx * gx + gy * gy + gz * gz = 1 ->
  gx * vx + gy * vy + gz * vz = 0 ->
  C * C + S * S = 1 ->
  let wx := vx * C + (gy * vz - gz * vy) * S in
  let wy := vy * C + (gz * vx - gx * vz) * S in
  let wz := vz * C + (gx * vy - gy * vx) * S in
  wx * wx + wy * wy + wz * wz = 1
  /\ vx * wx + vy * wy + vz * wz = C
  /\ S * S = (vy * wz - vz * wy) * (vy * wz - vz * wy)
             + (vz * wx - vx * wz) * (vz * wx - vx * wz)
             + (vx * wy - vy * wx) * (vx * wy - vy * wx)
  /\ (vy * wz - vz * wy = S * gx /\ vz * wx - vx * wz = S * gy
      /\ vx * wy - vy * wx = S * gz).
Proof.
  intros Hv Hg Hgv HCS wx wy wz. unfold wx, wy, wz.
  repeat split; nsatz.
Qed.

Lemma destinationPoint_Fin (la lo r th d : R) :
  r <> 0 ->
  exists vx vy vz gx gy gz,
    toVector (mkLatLonV (Fin la) (Fin lo) (Fin r))
    = Normal (mkVector3d (Fin vx) (Fin vy) (Fin vz))
    /\ greatCircle (mkLatLonV (Fin la) (Fin lo) (Fin r)) (VNumber (Fin th))
       = Normal (mkVector3d (Fin gx) (Fin gy) (Fin gz))
    /\ vx * vx + vy * vy + vz * vz = 1
    /\ gx * gx + gy * gy + gz * gz = 1
    /\ gx * vx + gy * vy + gz * vz = 0
    /\ gz = cos (la * PI / 180) * sin (th * PI / 180)
    /\ gx * vy - gy * vx = cos (la * PI / 180) * cos (th * PI / 180)
    /\ destinationPoint (mkLatLonV (Fin la) (Fin lo) (Fin r))
                        (VNumber (Fin th)) (VNumber (Fin d))
       = toLatLon (mkVector3d
                     (Fin (vx * cos (d / r) + (gy * vz - gz * vy) * sin (d / r)))
                     (Fin (vy * cos (d / r) + (gz * vx - gx * vz) * sin (d / r)))
                     (Fin (vz * cos (d / r) + (gx * vy - gy * vx) * sin (d / r)))).
Proof.
  intros Hr.
  pose proof (unit_circle (la * PI / 180)) as H1.
  pose proof (unit_circle (lo * PI / 180)) as H2.
  pose proof (unit_circle (th * PI / 180)) as H3.
  do 6 eexists.
  split; [apply toVector_Fin |]. split; [apply greatCircle_Fin |].
  split; [nsatz |]. split; [nsatz |]. split; [nsatz |].
  split; [reflexivity |]. split; [nsatz |].
  unfold destinationPoint. cbn [ToNumber radius]. rewrite Ndiv_Fin by exact Hr.
  rewrite greatCircle_Fin, toVector_Fin; simpl bind.
  cbn [Math_cos Math_sin].
  set (vx := cos (la * PI / 180) * cos (lo * PI / 180)) in *.
  set (vy := cos (la * PI / 180) * sin (lo * PI / 180)) in *.
  set (vz := sin (la * PI / 180)) in *.
  match goal with
  | |- context [cross (mkVector3d (Fin ?a) (Fin ?b) (Fin ?c)) _] =>
      set (gx := a) in *; set (gy := b) in *; set (gz := c) in *
  end.
  pose proof (unit_circle (d / r)) as H4.
  destruct (destination_vector vx vy vz gx gy gz (cos (d / r)) (sin (d / r)))
    as (Hw & _); [unfold vx, vy, vz; nsatz | unfold gx, gy, gz, vz; nsatz
                 | unfold gx, gy, gz, vx, vy, vz; nsatz | exact H4 |].
  f_equal. unfold plus, times, cross; simpl.
  now apply unit_of_unit_vector.
Qed.

(** In exact arithmetic, for all real arguments. *)
Lemma distanceTo_destinationPoint_exact (la lo r th d : R) :
  0 < r -> 0 <= d <= PI * r ->
  (q <- destinationPoint (mkLatLonV (Fin la) (Fin lo) (Fin r))
                         (VNumber (Fin th)) (VNumber (Fin d)) ;;
   distanceTo (mkLatLonV (Fin la) (Fin lo) (Fin r)) q)
  = Normal (Fin d).
Proof.
  intros Hr Hd. pose proof PI_RGT_0 as Hpi.
  destruct (destinationPoint_Fin la lo r th d)
    as (vx & vy & vz & gx & gy & gz & Hv & Hg & Hvv & Hgg & Hgv & _ & _ & ->);
    [lra |].
  pose proof (unit_circle (d / r)) as HCS.
  destruct (destination_vector vx vy vz gx gy gz (cos (d / r)) (sin (d / r))
              Hvv Hgg Hgv HCS) as (Hw & Hdot & Hcross & _).
  pose proof (toVector_toLatLon_identity _ _ _ Hw) as Hback.
  rewrite toLatLon_Fin in Hback |- *. simpl bind in Hback |- *.
  unfold distanceTo. rewrite Hv, Hback; simpl bind.
  assert (Hdelta : 0 <= d / r <= PI).
  { assert (Hk : 0 < / r) by (now apply Rinv_0_lt_compat).
    assert (Hrk : r * / r = 1) by (field; lra).
    unfold Rdiv. split; nra. }
  rewrite (angleTo_Fin _ _ _ _ _ _ (sin (d / r)));
    [| apply sin_ge_0; lra | exact Hcross].
  rewrite Hdot.
  rewrite <- (Rmult_1_l (sin (d / r))), <- (Rmult_1_l (cos (d / r))).
  rewrite Ratan2_polar by lra.
  simpl. f_equal; f_equal; field; lra.
Qed.

(** The bearing in terms of the n-vectors [v] and [w] of the two points:
    [c1] is their cross product, [sn] and [cs] are the signed sine and the
    cosine that [bearingTo] passes to [atan2]. *)
Lemma bearingTo_of_vectors (p q : LatLonV)
      (vx vy vz wx wy wz c1x c1y c1z sn cs : R) :
  toVector p = Normal (mkVector3d (Fin vx) (Fin vy) (Fin vz)) ->
  toVector q = Normal (mkVector3d (Fin wx) (Fin wy) (Fin wz)) ->
  vy * wz - vz * wy = c1x -> vz * wx - vx * wz = c1y -> vx * wy - vy * wx = c1z ->
  sn * sn = (c1z * vx) * (c1z * vx) + (c1z * vy) * (c1z * vy)
            + (c1x * vx + c1y * vy) * (c1x * vx + c1y * vy) ->
  sn = (c1z * vx) * vx + (c1z * vy) * vy - (c1x * vx + c1y * vy) * vz ->
  cs = c1x * vy - c1y * vx ->
  bearingTo p q
  = Normal (Nmod (Nadd (toDegrees (Fin (Ratan2 sn cs))) (Fin 360)) (Fin 360)).
Proof.
  intros Hp Hq Hx Hy Hz Hsn2 Hsn Hcs.
  unfold bearingTo. rewrite Hp, Hq; simpl bind.
  unfold length, dot, cross; simpl. rewrite Hx, Hy, Hz.
  match goal with
  | |- context [sqrt ?e] => replace e with (sn * sn) by (rewrite Hsn2; ring)
  end.
  rewrite (Rltb_false (sn * sn) 0) by nra.
  match goal with
  | |- context [if Rltb ?e 0 then _ else _] =>
      replace e with sn by (rewrite Hsn; ring)
  end.
  match goal with
  | |- context [Math_atan2 _ (Fin ?e)] =>
      replace e with cs by (rewrite Hcs; ring)
  end.
  replace (sqrt (sn * sn)) with (Rabs sn)
    by (symmetry; apply sqrt_lem_1;
        [nra | apply Rabs_pos
         | unfold Rabs; destruct (Rcase_abs sn); ring]).
  unfold Rltb. destruct (Rlt_dec sn 0) as [Hneg | Hpos]; cbn [Nneg Math_atan2].
  - rewrite Rabs_left by lra. now rewrite Ropp_involutive.
  - now rewrite Rabs_right by lra.
Qed.

(** The last line of [bearingTo] gives back a compass bearing of [0, 360)
    from its sine and cosine, scaled by any positive factor. *)
Lemma normalise_compass_bearing (k th : R) :
  0 < k -> 0 <= th < 360 ->
  Nmod (Nadd (toDegrees (Fin (Ratan2 (k * sin (th * PI / 180))
                                     (k * cos (th * PI / 180)))))
             (Fin 360)) (Fin 360)
  = Fin th.
Proof.
  intros Hk Hth. pose proof PI_RGT_0 as Hpi.
  destruct (Rle_dec th 180) as [Hle | Hgt].
  - rewrite Ratan2_polar by (try lra; split; nra).
    rewrite toDegrees_Fin; simpl Nadd.
    replace (th * PI / 180 * 180 / PI + 360) with (th + 360) by (field; lra).
    rewrite Nmod_360_above by lra. f_equal; ring.
  - replace (sin (th * PI / 180)) with (sin (th * PI / 180 - 2 * PI))
      by (rewrite sin_minus, sin_2PI, cos_2PI; ring).
    replace (cos (th * PI / 180)) with (cos (th * PI / 180 - 2 * PI))
      by (rewrite cos_minus, sin_2PI, cos_2PI; ring).
    rewrite Ratan2_polar by (try lra; split; nra).
    rewrite toDegrees_Fin; simpl Nadd.
    replace ((th * PI / 180 - 2 * PI) * 180 / PI + 360) with th by (field; lra).
    apply Nmod_360_below; lra.
Qed.

(** In exact arithmetic, for all real arguments. *)
Lemma bearingTo_destinationPoint_exact (la lo r th d : R) :
  -90 < la < 90 -> 0 < r -> 0 < d < PI * r -> 0 <= th < 360 ->
  (q <- destinationPoint (mkLatLonV (Fin la) (Fin lo) (Fin r))
                         (VNumber (Fin th)) (VNumber (Fin d)) ;;
   bearingTo (mkLatLonV (Fin la) (Fin lo) (Fin r)) q)
  = Normal (Fin th).
Proof.
  intros Hla Hr Hd Hth. pose proof PI_RGT_0 as Hpi.
  destruct (destinationPoint_Fin la lo r th d)
    as (vx & vy & vz & gx & gy & gz & Hv & Hg & Hvv & Hgg & Hgv
        & Hgz & Hge & ->); [lra |].
  pose proof (unit_circle (d / r)) as HCS.
  destruct (destination_vector vx vy vz gx gy gz (cos (d / r)) (sin (d / r))
              Hvv Hgg Hgv HCS) as (Hw & _ & _ & Hcx & Hcy & Hcz).
  pose proof (toVector_toLatLon_identity _ _ _ Hw) as Hback.
  rewrite toLatLon_Fin in Hback |- *. simpl bind in Hback |- *.
  set (S := sin (d / r)) in *.
  rewrite (bearingTo_of_vectors _ _ _ _ _ _ _ _ (S * gx) (S * gy) (S * gz)
             (S * gz) (S * (gx * vy - gy * vx)) Hv Hback Hcx Hcy Hcz);
    [| nsatz | nsatz | ring].
  rewrite Hgz, Hge, <- !Rmult_assoc.
  f_equal. apply normalise_compass_bearing; [| exact Hth].
  assert (Hdelta : 0 < d / r < PI).
  { assert (Hk : 0 < / r) by (now apply Rinv_0_lt_compat).
    assert (Hrk : r * / r = 1) by (field; lra).
    unfold Rdiv. split; nra. }
  apply Rmult_lt_0_compat.
  - apply sin_gt_0; lra.
  - apply cos_gt_0; nra.
Qed.

(** ** Intersection, continued *)

Lemma toLatLon_zero_vector :
  toLatLon (mkVector3d (Fin 0) (Fin 0) (Fin 0)) = Normal (point 0 0).
Proof.
  rewrite toLatLon_Fin. unfold point.
  replace (0 * 0 + 0 * 0) with 0 by ring. rewrite sqrt_0.
  assert (H : Ratan2 0 0 = 0).
  { unfold Ratan2. destruct (Rlt_dec 0 0); [lra | reflexivity]. }
  rewrite H.
  replace (0 * 180 / PI) with 0 by (pose proof PI_RGT_0; field; lra).
  reflexivity.
Qed.

(** In exact arithmetic, for all real arguments. *)
Lemma intersection_same_great_circle_exact (la lo th : R) (r : Number) :
  intersection (mkLatLonV (Fin la) (Fin lo) r) (VNumber (Fin th))
               (mkLatLonV (Fin la) (Fin lo) r) (VNumber (Fin th))
  = Normal (point 0 0)
  /\ intersection (mkLatLonV (Fin la) (Fin lo) r) (VNumber (Fin th))
                  (mkLatLonV (Fin la) (Fin lo) r) (VNumber (Fin (th + 180)))
     = Normal (point 0 0).
Proof.
  split.
  - unfold intersection; simpl typeof; cbv iota beta.
    rewrite greatCircle_Fin; simpl bind.
    match goal with
    | |- toLatLon ?c = _ =>
        replace c with (mkVector3d (Fin 0) (Fin 0) (Fin 0))
          by (unfold cross; simpl; f_equal; f_equal; ring)
    end.
    apply toLatLon_zero_vector.
  - destruct (greatCircle_opposite_bearing (mkLatLonV (Fin la) (Fin lo) r) th)
      as (gc & Hgc & Hrev).
    unfold intersection; simpl typeof; cbv iota beta.
    rewrite Hrev, Hgc. rewrite greatCircle_Fin in Hgc.
    injection Hgc as <-. simpl bind.
    match goal with
    | |- toLatLon ?c = _ =>
        replace c with (mkVector3d (Fin 0) (Fin 0) (Fin 0))
          by (unfold cross; simpl; f_equal; f_equal; ring)
    end.
    apply toLatLon_zero_vector.
Qed.




(** ** Cross-track distance *)

Lemma crossTrackDistanceTo_from_point (this s : LatLonV) (b : Value) :
  crossTrackDistanceTo this (VLatLonV s) b
  = (p <- toVector this ;;
     gc <- greatCircle s (VNumber (ToNumber b)) ;;
     Normal (Nmul (Nsub (Ndiv Math_PI (Fin 2)) (angleTo p gc)) (radius this))).
Proof. reflexivity. Qed.

Lemma Ndiv_PI_2 : Ndiv Math_PI (Fin 2) = Fin (PI / 2).
Proof. unfold Math_PI; apply Ndiv_Fin; lra. Qed.

Lemma angleTo_NaN_vector (v : Vector3d) : angleTo v NaN_vector = NaN.
Proof.
  unfold angleTo, length, dot, cross, NaN_vector; simpl.
  now rewrite !Nmul_NaN_r.
Qed.

(** X21: when the second argument of crossTrackDistanceTo is an endpoint
    (a point) or is left out, the result is NaN for every receiver and
    every start point: the argument is converted with Number and taken as
    a bearing. *)
Theorem crossTrackDistanceTo_endpoint (this s e : LatLonV) :
  crossTrackDistanceTo this (VLatLonV s) (VLatLonV e) = Normal NaN
  /\ crossTrackDistanceTo this (VLatLonV s) VUndefined = Normal NaN.
Proof.
  assert (H : forall b, ToNumber b = NaN ->
                        crossTrackDistanceTo this (VLatLonV s) b = Normal NaN).
  { intros b Hb. rewrite crossTrackDistanceTo_from_point, Hb.
    rewrite toVector_returns, greatCircle_not_a_number by reflexivity.
    cbn [bind]. now rewrite angleTo_NaN_vector, Ndiv_PI_2. }
  split; apply H; reflexivity.
Qed.

(** X22: when the start of the path is a number or undefined,
    crossTrackDistanceTo throws a TypeError, for every receiver and every
    second argument. *)
Theorem crossTrackDistanceTo_start_not_a_point
        (this : LatLonV) (n : Number) (b : Value) :
  crossTrackDistanceTo this (VNumber n) b
  = Throw (TypeError "pathStart.greatCircle is not a function")
  /\ crossTrackDistanceTo this VUndefined b
     = Throw (TypeError "Cannot read property greatCircle of undefined").
Proof. split; reflexivity. Qed.

Lemma crossTrackDistanceTo_perpendicular
      (la lo r la' lo' th : R) (r' : Number) :
  on_great_circle (mkLatLonV (Fin la) (Fin lo) (Fin r))
                  (mkLatLonV (Fin la') (Fin lo') r') (VNumber (Fin th)) ->
  crossTrackDistanceTo (mkLatLonV (Fin la) (Fin lo) (Fin r))
                       (VLatLonV (mkLatLonV (Fin la') (Fin lo') r'))
                       (VNumber (Fin th))
  = Normal (Fin 0).
Proof.
  intros (v & g & Hv & Hg & Hdot).
  rewrite crossTrackDistanceTo_from_point. cbn [ToNumber].
  rewrite Hv, Hg; cbn [bind].
  rewrite toVector_Fin in Hv. rewrite greatCircle_Fin in Hg.
  injection Hv as <-. injection Hg as <-.
  pose proof (unit_circle (la * PI / 180)) as H1.
  pose proof (unit_circle (lo * PI / 180)) as H2.
  pose proof (unit_circle (la' * PI / 180)) as H3.
  pose proof (unit_circle (lo' * PI / 180)) as H4.
  pose proof (unit_circle (th * PI / 180)) as H5.
  unfold dot in Hdot; simpl in Hdot. injection Hdot as Hdot.
  set (vx := cos (la * PI / 180) * cos (lo * PI / 180)) in *.
  set (vy := cos (la * PI / 180) * sin (lo * PI / 180)) in *.
  set (vz := sin (la * PI / 180)) in *.
  match goal with
  | |- context [angleTo _ (mkVector3d (Fin ?a) (Fin ?b) (Fin ?c))] =>
      set (gx := a) in *; set (gy := b) in *; set (gz := c) in *
  end.
  assert (Hvv : vx * vx + vy * vy + vz * vz = 1) by (unfold vx, vy, vz; nsatz).
  assert (Hgg : gx * gx + gy * gy + gz * gz = 1) by (unfold gx, gy, gz; nsatz).
  rewrite (angleTo_Fin _ _ _ _ _ _ 1); [| lra | nsatz].
  rewrite Hdot.
  assert (Hq : Ratan2 1 0 = PI / 2).
  { unfold Ratan2. destruct (Rlt_dec 0 0); [lra |].
    destruct (Rlt_dec 0 1); [reflexivity | lra]. }
  rewrite Hq, Ndiv_PI_2. simpl. f_equal; f_equal; ring.
Qed.

Lemma on_great_circle_start (la lo th : R) (r r' : Number) :
  on_great_circle (mkLatLonV (Fin la) (Fin lo) r)
                  (mkLatLonV (Fin la) (Fin lo) r') (VNumber (Fin th)).
Proof.
  unfold on_great_circle. do 2 eexists.
  split; [apply toVector_Fin |]. split; [apply greatCircle_Fin |].
  pose proof (unit_circle (la * PI / 180)).
  pose proof (unit_circle (lo * PI / 180)).
  unfold dot; simpl. f_equal. nsatz.
Qed.

(** X23: a point that lies on the great circle of a path has the
    cross-track distance 0 from it: for finite coordinates of the point
    and of the start of the path, a finite radius and a finite bearing. *)
Theorem crossTrackDistanceTo_on_path (la lo r la' lo' th : R) (r' : Number) :
  on_great_circle (mkLatLonV (Fin la) (Fin lo) (Fin r))
                  (mkLatLonV (Fin la') (Fin lo') r') (VNumber (Fin th)) ->
  crossTrackDistanceTo (mkLatLonV (Fin la) (Fin lo) (Fin r))
                       (VLatLonV (mkLatLonV (Fin la') (Fin lo') r'))
                       (VNumber (Fin th))
  = Normal (Fin 0).
Proof. apply crossTrackDistanceTo_perpendicular. Qed.

Lemma crossTrackDistanceTo_on_path_witness :
  on_great_circle (mkLatLonV (Fin 10) (Fin 20) (Fin 6371))
                  (mkLatLonV (Fin 10) (Fin 20) (Fin 6371)) (VNumber (Fin 45))
  /\ crossTrackDistanceTo (mkLatLonV (Fin 10) (Fin 20) (Fin 6371))
                          (VLatLonV (mkLatLonV (Fin 10) (Fin 20) (Fin 6371)))
                          (VNumber (Fin 45))
     = Normal (Fin 0).
Proof.
  split; [apply on_great_circle_start |].
  apply (crossTrackDistanceTo_on_path 10 20 6371 10 20 45 (Fin 6371)).
  apply on_great_circle_start.
Defined.

(** In exact arithmetic, for all real arguments. *)
Lemma crossTrackDistanceTo_of_start_exact (la lo r th : R) :
  crossTrackDistanceTo (mkLatLonV (Fin la) (Fin lo) (Fin r))
                       (VLatLonV (mkLatLonV (Fin la) (Fin lo) (Fin r)))
                       (VNumber (Fin th))
  = Normal (Fin 0).
Proof.
  apply crossTrackDistanceTo_perpendicular, on_great_circle_start.
Qed.

(** In exact arithmetic, for all real arguments. *)
Lemma crossTrackDistanceTo_range_exact (la lo r la' lo' th : R) (r' : Number) :
  0 <= r ->
  exists d,
    crossTrackDistanceTo (mkLatLonV (Fin la) (Fin lo) (Fin r))
                         (VLatLonV (mkLatLonV (Fin la') (Fin lo') r'))
                         (VNumber (Fin th))
    = Normal (Fin d)
    /\ - (PI / 2) * r <= d <= PI / 2 * r.
Proof.
  intros Hr. rewrite crossTrackDistanceTo_from_point. cbn [ToNumber].
  rewrite toVector_Fin, greatCircle_Fin; cbn [bind].
  match goal with
  | |- context [angleTo (mkVector3d (Fin ?a) (Fin ?b) (Fin ?c))
                        (mkVector3d (Fin ?a') (Fin ?b') (Fin ?c'))] =>
      destruct (angleTo_Fin_range a b c a' b' c') as (t & -> & Ht)
  end.
  rewrite Ndiv_PI_2. simpl.
  exists ((PI / 2 - t) * r). split; [reflexivity |].
  pose proof PI_RGT_0. nra.
Qed.

(** ** Equality and sign *)

(** X26: equals never returns: on a point it throws a ReferenceError,
    whatever the argument, and on a receiver that is not a point a
    TypeError. *)
Theorem equals_never_returns :
  (forall (this : LatLonV) (point : Value),
      equals this point = Throw (ReferenceError "points is not defined"))
  /\ (forall v point : Value, throws (invoke_equals v point)).
Proof.
  split; [reflexivity |].
  intros [| n | p | f] point; unfold throws; eexists; reflexivity.
Qed.

(** X27: Math.sign is odd on numbers (the sign of -x is minus the sign of
    x, NaN and the infinities included), takes no value but -1, 0, 1 and
    NaN, and is NaN on everything that is not a number. *)
Theorem Math_sign_odd :
  (forall n : Number,
      Math_sign (VNumber (Nneg n)) = Nneg (Math_sign (VNumber n)))
  /\ (forall v : Value,
         Math_sign v = Fin (-1) \/ Math_sign v = Fin 0
         \/ Math_sign v = Fin 1 \/ Math_sign v = NaN)
  /\ (forall (p : LatLonV) (f : string),
         Math_sign VUndefined = NaN /\ Math_sign (VLatLonV p) = NaN
         /\ Math_sign (VFunction f) = NaN).
Proof.
  split; [| split].
  - intros [| s | r]; simpl.
    + reflexivity.
    + destruct s; simpl; f_equal; lra.
    + unfold Reqb, Rltb.
      destruct (Req_dec_T (- r) 0), (Req_dec_T r 0); try lra;
        [simpl; f_equal; lra |].
      destruct (Rlt_dec (- r) 0), (Rlt_dec r 0); try lra;
        simpl; f_equal; lra.
  - intros [| [| s | r] | p | f]; simpl; auto.
    + destruct s; auto.
    + destruct (Reqb r 0); auto. destruct (Rltb r 0); auto.
  - intros p f; repeat split; reflexivity.
Qed.

(** ** Midpoint and distance *)





(** ** Order of the paths in an intersection *)





(** * Statements on the geographic domain

    The lemmas above hold for all real arguments because the model has no
    overflow.  The statements below keep to arguments on which a double
    does not overflow either: latitudes in [-90, 90], longitudes in
    [-180, 180], bearings in [-360, 360], radii up to 10^9. *)

(** X2: the n-vector of a point with latitude in [-90, 90] and longitude
    in [-180, 180] has length 1. *)
Theorem toVector_unit_length (la lo : R) (r : Number) :
  -90 <= la <= 90 -> -180 <= lo <= 180 ->
  exists v, toVector (mkLatLonV (Fin la) (Fin lo) r) = Normal v
            /\ dot v v = Fin 1 /\ length v = Fin 1.
Proof. intros _ _; apply toVector_unit_length_exact. Qed.

Lemma toVector_unit_length_witness :
  (-90 <= 51.4778 <= 90 /\ -180 <= -0.0015 <= 180)
  /\ exists v, toVector (mkLatLonV (Fin 51.4778) (Fin (-0.0015)) (Fin 6371))
               = Normal v
               /\ dot v v = Fin 1 /\ length v = Fin 1.
Proof.
  split; [lra |].
  apply (toVector_unit_length 51.4778 (-0.0015) (Fin 6371)); lra.
Defined.

(** X3: lifting any finite vector gives a latitude in [-90, 90] and a
    longitude in [-180, 180], on the default radius. *)
Theorem toLatLon_range (a b c : R) :
  exists la lo,
    toLatLon (mkVector3d (Fin a) (Fin b) (Fin c))
    = Normal (mkLatLonV (Fin la) (Fin lo) (Fin 6371))
    /\ -90 <= la <= 90 /\ -180 <= lo <= 180.
Proof.
  destruct (toLatLon_range_exact a b c) as (la & lo & H & Hla & Hlo).
  exists la, lo. split; [exact H |]. split; lra.
Qed.

(** X4: lifting does not depend on the length of the vector: a vector of
    length 1 and its multiple by a factor between 10^-6 and 10^6 lift to
    the same point. *)
Theorem toLatLon_scale_invariant (k a b c : R) :
  a * a + b * b + c * c = 1 -> 1 / 1000000 <= k <= 1000000 ->
  toLatLon (times (mkVector3d (Fin a) (Fin b) (Fin c)) (Fin k))
  = toLatLon (mkVector3d (Fin a) (Fin b) (Fin c)).
Proof. intros _ Hk; apply toLatLon_scale_invariant_exact; lra. Qed.

Lemma toLatLon_scale_invariant_witness :
  (0 * 0 + 0 * 0 + 1 * 1 = 1 /\ 1 / 1000000 <= 6371 <= 1000000)
  /\ toLatLon (times (mkVector3d (Fin 0) (Fin 0) (Fin 1)) (Fin 6371))
     = toLatLon (mkVector3d (Fin 0) (Fin 0) (Fin 1)).
Proof.
  split; [lra |]. apply (toLatLon_scale_invariant 6371 0 0 1); lra.
Defined.

(** X7: for a point with latitude in [-90, 90] and longitude in
    [-180, 180] and a bearing in [-360, 360], the great-circle vector has
    length 1 and is perpendicular to the n-vector of the point. *)
Theorem greatCircle_unit_perpendicular (la lo th : R) (r : Number) :
  -90 <= la <= 90 -> -180 <= lo <= 180 -> -360 <= th <= 360 ->
  exists v gc,
    toVector (mkLatLonV (Fin la) (Fin lo) r) = Normal v
    /\ greatCircle (mkLatLonV (Fin la) (Fin lo) r) (VNumber (Fin th))
       = Normal gc
    /\ length gc = Fin 1 /\ dot gc v = Fin 0.
Proof. intros _ _ _; apply greatCircle_unit_perpendicular_exact. Qed.

Lemma greatCircle_unit_perpendicular_witness :
  (-90 <= 51.4778 <= 90 /\ -180 <= -0.0015 <= 180 /\ -360 <= 300.7 <= 360)
  /\ exists v gc,
       toVector (mkLatLonV (Fin 51.4778) (Fin (-0.0015)) (Fin 6371)) = Normal v
       /\ greatCircle (mkLatLonV (Fin 51.4778) (Fin (-0.0015)) (Fin 6371))
                      (VNumber (Fin 300.7)) = Normal gc
       /\ length gc = Fin 1 /\ dot gc v = Fin 0.
Proof.
  split; [lra |].
  apply (greatCircle_unit_perpendicular 51.4778 (-0.0015) 300.7 (Fin 6371)); lra.
Defined.

(** X8: turning a bearing of [-360, 360] round by 180 degrees turns the
    great-circle vector into its negative, for every point. *)
Theorem greatCircle_reverse (p : LatLonV) (th : R) :
  -360 <= th <= 360 ->
  exists gc,
    greatCircle p (VNumber (Fin th)) = Normal gc
    /\ greatCircle p (VNumber (Fin (th + 180)))
       = Normal (mkVector3d (Nneg (x gc)) (Nneg (y gc)) (Nneg (z gc))).
Proof. intros _; apply greatCircle_opposite_bearing. Qed.

Lemma greatCircle_reverse_witness :
  -360 <= 96 <= 360
  /\ exists gc,
       greatCircle (point 53.3206 (-1.7297)) (VNumber (Fin 96)) = Normal gc
       /\ greatCircle (point 53.3206 (-1.7297)) (VNumber (Fin (96 + 180)))
          = Normal (mkVector3d (Nneg (x gc)) (Nneg (y gc)) (Nneg (z gc))).
Proof.
  split; [lra |]. apply (greatCircle_reverse (point 53.3206 (-1.7297)) 96); lra.
Defined.

(** X9: between two points with latitudes in [-90, 90] and longitudes in
    [-180, 180], measured on a radius between 0 and 10^9, the distance is
    a finite number between 0 and PI times the radius of the receiver. *)
Theorem distanceTo_range (la1 lo1 la2 lo2 r1 : R) (r2 : Number) :
  -90 <= la1 <= 90 -> -180 <= lo1 <= 180 ->
  -90 <= la2 <= 90 -> -180 <= lo2 <= 180 ->
  0 <= r1 <= 1000000000 ->
  exists d,
    distanceTo (mkLatLonV (Fin la1) (Fin lo1) (Fin r1))
               (mkLatLonV (Fin la2) (Fin lo2) r2) = Normal (Fin d)
    /\ 0 <= d <= PI * r1.
Proof. intros _ _ _ _ Hr; apply distanceTo_range_exact; lra. Qed.

Lemma distanceTo_range_witness :
  (-90 <= 50.066389 <= 90 /\ -180 <= -5.714722 <= 180
   /\ -90 <= 58.643889 <= 90 /\ -180 <= -3.07 <= 180
   /\ 0 <= 6371 <= 1000000000)
  /\ exists d,
       distanceTo (mkLatLonV (Fin 50.066389) (Fin (-5.714722)) (Fin 6371))
                  (mkLatLonV (Fin 58.643889) (Fin (-3.07)) (Fin 6371))
       = Normal (Fin d)
       /\ 0 <= d <= PI * 6371.
Proof.
  split; [lra |].
  apply (distanceTo_range 50.066389 (-5.714722) 58.643889 (-3.07) 6371
                          (Fin 6371)); lra.
Defined.

(** X10: the distance from a point to itself is 0, for a latitude in
    [-90, 90], a longitude in [-180, 180] and a radius between 0 and
    10^9. *)
Theorem distanceTo_self (la lo r : R) :
  -90 <= la <= 90 -> -180 <= lo <= 180 -> 0 <= r <= 1000000000 ->
  distanceTo (mkLatLonV (Fin la) (Fin lo) (Fin r))
             (mkLatLonV (Fin la) (Fin lo) (Fin r)) = Normal (Fin 0).
Proof. intros _ _ _; apply distanceTo_self_exact. Qed.

Lemma distanceTo_self_witness :
  (-90 <= 51.4778 <= 90 /\ -180 <= -0.0015 <= 180 /\ 0 <= 6371 <= 1000000000)
  /\ distanceTo (mkLatLonV (Fin 51.4778) (Fin (-0.0015)) (Fin 6371))
                (mkLatLonV (Fin 51.4778) (Fin (-0.0015)) (Fin 6371))
     = Normal (Fin 0).
Proof.
  split; [lra |]. apply (distanceTo_self 51.4778 (-0.0015) 6371); lra.
Defined.

(** X11: between two points with latitudes in [-90, 90] and longitudes in
    [-180, 180] the bearing is a finite number in [0, 360). *)
Theorem bearingTo_range (la1 lo1 la2 lo2 : R) (r1 r2 : Number) :
  -90 <= la1 <= 90 -> -180 <= lo1 <= 180 ->
  -90 <= la2 <= 90 -> -180 <= lo2 <= 180 ->
  exists b,
    bearingTo (mkLatLonV (Fin la1) (Fin lo1) r1)
              (mkLatLonV (Fin la2) (Fin lo2) r2) = Normal (Fin b)
    /\ 0 <= b < 360.
Proof. intros _ _ _ _; apply bearingTo_range_exact. Qed.

Lemma bearingTo_range_witness :
  (-90 <= 50.066389 <= 90 /\ -180 <= -5.714722 <= 180
   /\ -90 <= 58.643889 <= 90 /\ -180 <= -3.07 <= 180)
  /\ exists b,
       bearingTo (mkLatLonV (Fin 50.066389) (Fin (-5.714722)) (Fin 6371))
                 (mkLatLonV (Fin 58.643889) (Fin (-3.07)) (Fin 6371))
       = Normal (Fin b)
       /\ 0 <= b < 360.
Proof.
  split; [lra |].
  apply (bearingTo_range 50.066389 (-5.714722) 58.643889 (-3.07)
                         (Fin 6371) (Fin 6371)); lra.
Defined.

(** X12: due south the bearing is 180: from a point with latitude in
    [-89, 89] to a point of the same longitude, in [-180, 180], that lies
    at least a thousandth of a degree further south. *)
Theorem bearingTo_due_south (la1 la2 lo : R) (r1 r2 : Number) :
  -89 <= la1 <= 89 -> -90 <= la2 <= la1 - 1 / 1000 -> -180 <= lo <= 180 ->
  bearingTo (mkLatLonV (Fin la1) (Fin lo) r1) (mkLatLonV (Fin la2) (Fin lo) r2)
  = Normal (Fin 180).
Proof.
  intros H1 H2 _.
  rewrite bearingTo_along_meridian_exact by lra.
  destruct (Rlt_dec la1 la2); [lra | reflexivity].
Qed.

Lemma bearingTo_due_south_witness :
  (-89 <= 58.643889 <= 89 /\ -90 <= 50.066389 <= 58.643889 - 1 / 1000
   /\ -180 <= -3.07 <= 180)
  /\ bearingTo (mkLatLonV (Fin 58.643889) (Fin (-3.07)) (Fin 6371))
               (mkLatLonV (Fin 50.066389) (Fin (-3.07)) (Fin 6371))
     = Normal (Fin 180).
Proof.
  split; [lra |].
  apply (bearingTo_due_south 58.643889 50.066389 (-3.07) (Fin 6371) (Fin 6371));
    lra.
Defined.

(** X15: travelling the distance 0 leads to the start point, on the
    default radius: for a latitude strictly between -90 and 90, a
    longitude in (-180, 180], a bearing in [-360, 360] and a radius
    between 1 and 10^9. *)
Theorem destinationPoint_zero_distance (la lo r th : R) :
  -90 < la < 90 -> -180 < lo <= 180 -> 1 <= r <= 1000000000 ->
  -360 <= th <= 360 ->
  destinationPoint (mkLatLonV (Fin la) (Fin lo) (Fin r))
                   (VNumber (Fin th)) (VNumber (Fin 0))
  = Normal (mkLatLonV (Fin la) (Fin lo) (Fin 6371)).
Proof.
  intros Hla Hlo Hr _. apply destinationPoint_zero_distance_exact; lra.
Qed.

Lemma destinationPoint_zero_distance_witness :
  (-90 < 51.4778 < 90 /\ -180 < -0.0015 <= 180 /\ 1 <= 6371 <= 1000000000
   /\ -360 <= 300.7 <= 360)
  /\ destinationPoint (mkLatLonV (Fin 51.4778) (Fin (-0.0015)) (Fin 6371))
                      (VNumber (Fin 300.7)) (VNumber (Fin 0))
     = Normal (mkLatLonV (Fin 51.4778) (Fin (-0.0015)) (Fin 6371)).
Proof.
  split; [lra |].
  apply (destinationPoint_zero_distance 51.4778 (-0.0015) 6371 300.7); lra.
Defined.

(** X17: the distance from a point to the destination reached from it
    after the distance d is d: for a latitude in [-90, 90], a longitude in
    [-180, 180], a bearing in [-360, 360], a radius between 1 and 10^9,
    and d between 0 and PI times the radius. *)
Theorem distanceTo_destinationPoint (la lo r th d : R) :
  -90 <= la <= 90 -> -180 <= lo <= 180 -> -360 <= th <= 360 ->
  1 <= r <= 1000000000 -> 0 <= d <= PI * r ->
  (q <- destinationPoint (mkLatLonV (Fin la) (Fin lo) (Fin r))
                         (VNumber (Fin th)) (VNumber (Fin d)) ;;
   distanceTo (mkLatLonV (Fin la) (Fin lo) (Fin r)) q)
  = Normal (Fin d).
Proof.
  intros _ _ _ Hr Hd. apply distanceTo_destinationPoint_exact; [lra | exact Hd].
Qed.

Lemma distanceTo_destinationPoint_witness :
  (-90 <= 51.4778 <= 90 /\ -180 <= -0.0015 <= 180 /\ -360 <= 300.7 <= 360
   /\ 1 <= 6371 <= 1000000000 /\ 0 <= 7794 <= PI * 6371)
  /\ (q <- destinationPoint (mkLatLonV (Fin 51.4778) (Fin (-0.0015)) (Fin 6371))
                            (VNumber (Fin 300.7)) (VNumber (Fin 7794)) ;;
      distanceTo (mkLatLonV (Fin 51.4778) (Fin (-0.0015)) (Fin 6371)) q)
     = Normal (Fin 7794).
Proof.
  assert (H : 0 <= 7794 <= PI * 6371) by (pose proof PI2_3_2; lra).
  split; [repeat split; try lra; apply H |].
  apply (distanceTo_destinationPoint 51.4778 (-0.0015) 6371 300.7 7794);
    try lra; exact H.
Defined.

(** X18: the bearing from a point to the destination reached from it on
    the bearing th is th: for a latitude in [-89, 89], a longitude in
    [-180, 180], a radius r between 1 and 10^9, a distance between r/1000
    and 3 r, and th in [1, 359]. *)
Theorem bearingTo_destinationPoint (la lo r th d : R) :
  -89 <= la <= 89 -> -180 <= lo <= 180 -> 1 <= r <= 1000000000 ->
  r / 1000 <= d <= 3 * r -> 1 <= th <= 359 ->
  (q <- destinationPoint (mkLatLonV (Fin la) (Fin lo) (Fin r))
                         (VNumber (Fin th)) (VNumber (Fin d)) ;;
   bearingTo (mkLatLonV (Fin la) (Fin lo) (Fin r)) q)
  = Normal (Fin th).
Proof.
  intros Hla _ Hr Hd Hth. pose proof PI2_3_2 as Hpi.
  apply bearingTo_destinationPoint_exact; try lra.
  split; [lra | nra].
Qed.

Lemma bearingTo_destinationPoint_witness :
  (-89 <= 51.4778 <= 89 /\ -180 <= -0.0015 <= 180 /\ 1 <= 6371 <= 1000000000
   /\ 6371 / 1000 <= 7794 <= 3 * 6371 /\ 1 <= 300.7 <= 359)
  /\ (q <- destinationPoint (mkLatLonV (Fin 51.4778) (Fin (-0.0015)) (Fin 6371))
                            (VNumber (Fin 300.7)) (VNumber (Fin 7794)) ;;
      bearingTo (mkLatLonV (Fin 51.4778) (Fin (-0.0015)) (Fin 6371)) q)
     = Normal (Fin 300.7).
Proof.
  split; [lra |].
  apply (bearingTo_destinationPoint 51.4778 (-0.0015) 6371 300.7 7794); lra.
Defined.

(** X19: a path given twice (the same start, with latitude in [-90, 90]
    and longitude in [-180, 180], and the same bearing in [-360, 360])
    has no unique intersection with itself, and the source returns the
    point 0N 0E for it (not null). *)
Theorem intersection_same_path (la lo th : R) (r : Number) :
  -90 <= la <= 90 -> -180 <= lo <= 180 -> -360 <= th <= 360 ->
  intersection (mkLatLonV (Fin la) (Fin lo) r) (VNumber (Fin th))
               (mkLatLonV (Fin la) (Fin lo) r) (VNumber (Fin th))
  = Normal (point 0 0).
Proof. intros _ _ _; apply intersection_same_great_circle_exact. Qed.

Lemma intersection_same_path_witness :
  (-90 <= 51.4778 <= 90 /\ -180 <= -0.0015 <= 180 /\ -360 <= 300.7 <= 360)
  /\ intersection (mkLatLonV (Fin 51.4778) (Fin (-0.0015)) (Fin 6371))
                  (VNumber (Fin 300.7))
                  (mkLatLonV (Fin 51.4778) (Fin (-0.0015)) (Fin 6371))
                  (VNumber (Fin 300.7))
     = Normal (point 0 0).
Proof.
  split; [lra |].
  apply (intersection_same_path 51.4778 (-0.0015) 300.7 (Fin 6371)); lra.
Defined.

(** X24: the start of a path has the cross-track distance 0 from the
    path: for a latitude in [-90, 90], a longitude in [-180, 180], a
    bearing in [-360, 360] and a radius between 0 and 10^9. *)
Theorem crossTrackDistanceTo_of_start (la lo r th : R) :
  -90 <= la <= 90 -> -180 <= lo <= 180 -> -360 <= th <= 360 ->
  0 <= r <= 1000000000 ->
  crossTrackDistanceTo (mkLatLonV (Fin la) (Fin lo) (Fin r))
                       (VLatLonV (mkLatLonV (Fin la) (Fin lo) (Fin r)))
                       (VNumber (Fin th))
  = Normal (Fin 0).
Proof. intros _ _ _ _; apply crossTrackDistanceTo_of_start_exact. Qed.

Lemma crossTrackDistanceTo_of_start_witness :
  (-90 <= 53.3206 <= 90 /\ -180 <= -1.7297 <= 180 /\ -360 <= 96 <= 360
   /\ 0 <= 6371 <= 1000000000)
  /\ crossTrackDistanceTo (mkLatLonV (Fin 53.3206) (Fin (-1.7297)) (Fin 6371))
                          (VLatLonV (mkLatLonV (Fin 53.3206) (Fin (-1.7297))
                                               (Fin 6371)))
                          (VNumber (Fin 96))
     = Normal (Fin 0).
Proof.
  split; [lra |].
  apply (crossTrackDistanceTo_of_start 53.3206 (-1.7297) 6371 96); lra.
Defined.

(** X25: for latitudes in [-90, 90], longitudes in [-180, 180], a bearing
    in [-360, 360] and a radius between 0 and 10^9, the cross-track
    distance is a finite number between -PI/2 and PI/2 times the radius
    of the receiver. *)
Theorem crossTrackDistanceTo_range (la lo r la' lo' th : R) (r' : Number) :
  -90 <= la <= 90 -> -180 <= lo <= 180 ->
  -90 <= la' <= 90 -> -180 <= lo' <= 180 -> -360 <= th <= 360 ->
  0 <= r <= 1000000000 ->
  exists d,
    crossTrackDistanceTo (mkLatLonV (Fin la) (Fin lo) (Fin r))
                         (VLatLonV (mkLatLonV (Fin la') (Fin lo') r'))
                         (VNumber (Fin th))
    = Normal (Fin d)
    /\ - (PI / 2) * r <= d <= PI / 2 * r.
Proof. intros _ _ _ _ _ Hr; apply crossTrackDistanceTo_range_exact; lra. Qed.

Lemma crossTrackDistanceTo_range_witness :
  (-90 <= 53.2611 <= 90 /\ -180 <= -0.7972 <= 180
   /\ -90 <= 53.3206 <= 90 /\ -180 <= -1.7297 <= 180 /\ -360 <= 96 <= 360
   /\ 0 <= 6371 <= 1000000000)
  /\ exists d,
       crossTrackDistanceTo (mkLatLonV (Fin 53.2611) (Fin (-0.7972)) (Fin 6371))
                            (VLatLonV (mkLatLonV (Fin 53.3206) (Fin (-1.7297))
                                                 (Fin 6371)))
                            (VNumber (Fin 96))
       = Normal (Fin d)
       /\ - (PI / 2) * 6371 <= d <= PI / 2 * 6371.
Proof.
  split; [lra |].
  apply (crossTrackDistanceTo_range 53.2611 (-0.7972) 6371 53.3206 (-1.7297)
                                    96 (Fin 6371)); lra.
Defined.


